(** * Energinet Data Service MCP server (server.py): a shallow embedding

    The server exposes six tools.  Each one builds a query-parameter
    dictionary, awaits one HTTP GET through [make_api_request] and renders
    the decoded JSON body as text.  The development follows that layering:

    - the Python values that [response.json()] can produce, and the few
      built-in operations the server applies to them (truthiness, [dict.get],
      [in], [len], slicing, [+], [str] and the fixed-point format codes);
    - exceptions as an error monad, awaited network calls as a state
      monad over the session of the HTTP client, which records every
      request handed to it;
    - the server's functions, under their own names;
    - the properties of the specification. *)

From Stdlib Require Import ZArith String Ascii List Bool Lia.
From Stdlib Require Import Floats.SpecFloat.
From stdpp Require Import gmap strings pretty.

Set Warnings "-register-all".

Local Open Scope string_scope.
Local Open Scope list_scope.
Local Open Scope Z_scope.

(** ** Characters that a string literal cannot spell here *)

(** The line feed of the source's escape sequence and the double quote that
    the filter expressions contain. *)
Definition NL : string := String "010"%char EmptyString.
Definition DQUOTE : string := String "034"%char EmptyString.

(** ** Python values *)

(** What [json.loads] returns: [None], [bool], [int] (unbounded), [float]
    (IEEE binary64, here the standard library's [spec_float] at precision 53),
    [str], [list] and [dict].  A dict keeps its items in insertion order, so
    it is an association list; [dict_get] reads the first binding of a key. *)
Inductive value : Type :=
| VNone
| VBool (b : bool)
| VInt (z : Z)
| VFloat (f : spec_float)
| VStr (s : string)
| VList (l : list value)
| VDict (d : list (string * value)).

Definition prec : Z := 53.
Definition emax : Z := 1024.

(** ** Exceptions *)

(** The classes that the handlers of [make_api_request] tell apart:
    [httpx.HTTPStatusError] (the handler reads [e.response.status_code] and
    [e.response.text]), [httpx.RequestError] with its subclasses (the handler
    reads [str(e)]), and every other instance of [Exception], kept with its
    class name and [str(e)]. *)
Inductive exn : Type :=
| HTTPStatusError (status_code : Z) (text : string)
| RequestError (msg : string)
| Exception (cls : string) (msg : string).

Inductive result (A : Type) : Type :=
| Ok (a : A)
| Raise (e : exn).
Arguments Ok {A} a.
Arguments Raise {A} e.

#[global] Instance result_ret : MRet result := fun A a => Ok a.
#[global] Instance result_bind : MBind result := fun A B f m =>
  match m with
  | Ok a => f a
  | Raise e => Raise e
  end.

Definition TypeError {A} (msg : string) : result A := Raise (Exception "TypeError" msg).
Definition AttributeError {A} (msg : string) : result A := Raise (Exception "AttributeError" msg).
Definition KeyError {A} (msg : string) : result A := Raise (Exception "KeyError" msg).
Definition ValueError {A} (msg : string) : result A := Raise (Exception "ValueError" msg).
Definition OverflowError {A} (msg : string) : result A := Raise (Exception "OverflowError" msg).

(** [for x in xs: body], the loop state passed explicitly. *)
Fixpoint for_each {A S : Type} (xs : list A) (body : A -> S -> result S) (s : S) : result S :=
  match xs with
  | [] => Ok s
  | x :: rest =>
      match body x s with
      | Ok s' => for_each rest body s'
      | Raise e => Raise e
      end
  end.

(** [enumerate(xs)], counting from [start]. *)
Fixpoint enumerate_from {A : Type} (start : Z) (xs : list A) : list (Z * A) :=
  match xs with
  | [] => []
  | x :: rest => (start, x) :: enumerate_from (start + 1) rest
  end.

Definition enumerate {A : Type} (xs : list A) : list (Z * A) := enumerate_from 0 xs.

(** ** Built-in operations on values *)

Definition float_is_zero (f : spec_float) : bool :=
  match f with
  | S754_zero _ => true
  | _ => false
  end.

(** [bool(v)]: the test behind [if v], [not v] and [v or w]. *)
Definition truthy (v : value) : bool :=
  match v with
  | VNone => false
  | VBool b => b
  | VInt z => negb (z =? 0)
  | VFloat f => negb (float_is_zero f)
  | VStr s => negb (String.eqb s "")
  | VList l => match l with [] => false | _ => true end
  | VDict d => match d with [] => false | _ => true end
  end.

(** [v or w]. *)
Definition py_or (v w : value) : value := if truthy v then v else w.

Fixpoint dict_get (d : list (string * value)) (key : string) : option value :=
  match d with
  | [] => None
  | (k, v) :: rest => if String.eqb k key then Some v else dict_get rest key
  end.

(** [d.get(key, fallback)] on a dict. *)
Definition dict_get_or (d : list (string * value)) (key : string) (fallback : value) : value :=
  match dict_get d key with
  | Some x => x
  | None => fallback
  end.

(** [v.get(key, fallback)]: only a dict has the method. *)
Definition py_get (v : value) (key : string) (fallback : value) : result value :=
  match v with
  | VDict d => Ok (dict_get_or d key fallback)
  | _ => AttributeError "object has no attribute 'get'"
  end.

(** [v.items()]. *)
Definition py_items (v : value) : result (list (string * value)) :=
  match v with
  | VDict d => Ok d
  | _ => AttributeError "object has no attribute 'items'"
  end.

(** [needle in hay] on strings. *)
Fixpoint contains_str (needle hay : string) : bool :=
  String.prefix needle hay ||
  match hay with
  | EmptyString => false
  | String _ rest => contains_str needle rest
  end.

Definition is_str (key : string) (v : value) : bool :=
  match v with
  | VStr s => String.eqb s key
  | _ => false
  end.

(** [key in v] for a string [key]: a key of a dict, an element of a list, a
    substring of a string; the other values are not containers. *)
Definition py_in (key : string) (v : value) : result bool :=
  match v with
  | VDict d => Ok (match dict_get d key with Some _ => true | None => false end)
  | VList l => Ok (existsb (is_str key) l)
  | VStr s => Ok (contains_str key s)
  | _ => TypeError "argument is not iterable"
  end.

(** [v[key]] for a string [key]. *)
Definition py_getitem (v : value) (key : string) : result value :=
  match v with
  | VDict d => match dict_get d key with Some x => Ok x | None => KeyError key end
  | VList _ => TypeError "list indices must be integers or slices, not str"
  | VStr _ => TypeError "string indices must be integers, not 'str'"
  | _ => TypeError "object is not subscriptable"
  end.

(** A [str] is a sequence of code points, held here in UTF-8: a byte of the
    form 10xxxxxx continues the code point that the bytes before it began. *)
Definition is_continuation (c : ascii) : bool :=
  (128 <=? nat_of_ascii c)%nat && (nat_of_ascii c <? 192)%nat.

Fixpoint code_points (s : string) : list string :=
  match s with
  | EmptyString => []
  | String c rest =>
      match code_points rest with
      | String c' p :: ps =>
          if is_continuation c' then String c (String c' p) :: ps
          else String c EmptyString :: String c' p :: ps
      | ps => String c EmptyString :: ps
      end
  end.

Definition chars (s : string) : list value := map VStr (code_points s).

(** [len(v)]. *)
Definition py_len (v : value) : result Z :=
  match v with
  | VList l => Ok (Z.of_nat (List.length l))
  | VDict d => Ok (Z.of_nat (List.length d))
  | VStr s => Ok (Z.of_nat (List.length (code_points s)))
  | _ => TypeError "object has no len()"
  end.

(** [iter(v)], as a [for] loop consumes it: the elements of a list, the keys
    of a dict, the characters of a string. *)
Definition py_iter (v : value) : result (list value) :=
  match v with
  | VList l => Ok l
  | VDict d => Ok (map (fun kv => VStr (fst kv)) d)
  | VStr s => Ok (chars s)
  | _ => TypeError "object is not iterable"
  end.

(** The number of elements that [xs[:stop]] keeps of a sequence of length
    [len]: a negative [stop] counts from the end, and the bounds clip. *)
Definition slice_stop (len : nat) (stop : Z) : nat :=
  let n := Z.of_nat len in
  let k := if stop <? 0 then stop + n else stop in
  Z.to_nat (Z.max 0 (Z.min k n)).

(** The elements of [v[:stop]]; a dict cannot be sliced. *)
Definition py_slice_to (v : value) (stop : Z) : result (list value) :=
  match v with
  | VList l => Ok (firstn (slice_stop (List.length l) stop) l)
  | VStr s => Ok (firstn (slice_stop (List.length (code_points s)) stop) (chars s))
  | _ => TypeError "object is not subscriptable"
  end.

(** [isinstance(v, (int, float))]; [bool] is a subclass of [int]. *)
Definition is_number (v : value) : bool :=
  match v with
  | VBool _ | VInt _ | VFloat _ => true
  | _ => false
  end.

(** ** Floats *)

(** [float(z)]: the nearest binary64, ties to even; too large an [int] raises. *)
Definition float_of_int (z : Z) : result spec_float :=
  match binary_normalize prec emax z 0 false with
  | S754_infinity _ => OverflowError "int too large to convert to float"
  | f => Ok f
  end.

(** The float that the decimal literal [digits * 10^-scale] denotes, for a
    literal whose digits and power of ten are both exact in binary64 (one
    correctly rounded division then gives the nearest float). *)
Definition float_of_decimal (digits : Z) (scale : nat) : spec_float :=
  SFdiv prec emax (binary_normalize prec emax digits 0 false)
                  (binary_normalize prec emax (10 ^ Z.of_nat scale) 0 false).

(** [num / den] rounded to the nearest integer, ties to even ([0 < den]). *)
Definition round_half_even (num den : Z) : Z :=
  let q := num / den in
  let r := num mod den in
  match 2 * r ?= den with
  | Lt => q
  | Gt => q + 1
  | Eq => if Z.even q then q else q + 1
  end.

(** [s] padded on the left with zeros to [width] characters. *)
Definition zfill (width : nat) (s : string) : string :=
  string_of_list_ascii (repeat "0"%char (width - String.length s)) +:+ s.

(** The digits of [q / 10^decimals] with [decimals] places after the point
    (no point when there is no place after it). *)
Definition fixed_digits (decimals : nat) (negative : bool) (q : Z) : string :=
  let p := 10 ^ Z.of_nat decimals in
  (if negative then "-" else "") +:+ pretty (q / p) +:+
  match decimals with
  | O => ""
  | S _ => "." +:+ zfill decimals (pretty (q mod p))
  end.

(** [format(f, '.<decimals>f')] for a float: the exact binary value
    [m * 2^e] times [10^decimals], rounded half to even. *)
Definition format_float (decimals : nat) (f : spec_float) : string :=
  match f with
  | S754_nan => "nan"
  | S754_infinity s => if s then "-inf" else "inf"
  | S754_zero s => fixed_digits decimals s 0
  | S754_finite s m e =>
      let p := 10 ^ Z.of_nat decimals in
      fixed_digits decimals s
        (round_half_even (Z.pos m * p * 2 ^ Z.max e 0) (2 ^ Z.max (- e) 0))
  end.

(** [f"{v:.<decimals>f}"]: an [int] is converted to [float] first, a string
    has no such format code, and the other types take no format string. *)
Definition py_format_f (decimals : nat) (v : value) : result string :=
  match v with
  | VFloat f => Ok (format_float decimals f)
  | VInt z => f ← float_of_int z; Ok (format_float decimals f)
  | VBool b => f ← float_of_int (if b then 1 else 0); Ok (format_float decimals f)
  | VStr _ => ValueError "Unknown format code 'f' for object of type 'str'"
  | _ => TypeError "unsupported format string"
  end.

Definition as_int (v : value) : option Z :=
  match v with
  | VInt z => Some z
  | VBool b => Some (if b then 1 else 0)
  | _ => None
  end.

(** [v + w]: integer addition, float addition after converting an [int]
    operand, concatenation of two strings or of two lists. *)
Definition py_add (v w : value) : result value :=
  match as_int v, as_int w with
  | Some a, Some b => Ok (VInt (a + b))
  | _, _ =>
      match v, w with
      | VFloat a, VFloat b => Ok (VFloat (SFadd prec emax a b))
      | VFloat a, (VInt _ | VBool _) =>
          match as_int w with
          | Some z => b ← float_of_int z; Ok (VFloat (SFadd prec emax a b))
          | None => TypeError "unsupported operand type(s) for +"
          end
      | (VInt _ | VBool _), VFloat b =>
          match as_int v with
          | Some z => a ← float_of_int z; Ok (VFloat (SFadd prec emax a b))
          | None => TypeError "unsupported operand type(s) for +"
          end
      | VStr a, VStr b => Ok (VStr (a +:+ b))
      | VList a, VList b => Ok (VList (a ++ b))
      | _, _ => TypeError "unsupported operand type(s) for +"
      end
  end.

(** ** The HTTP client and awaited calls *)

(** What the handlers and the success path read of an [httpx.Response]:
    the status code, the body text, and what [response.json()] does (the
    decoded value, or the exception the decoder raises). *)
Record response : Type := {
  status_code : Z;
  text : string;
  json : result value
}.

(** One call of [client.get(url, params=params, timeout=timeout)]; the
    timeout in seconds. *)
Record request : Type := {
  url : string;
  params : option (gmap string value);
  timeout : Z
}.

(** The world outside: what a GET meets, a response or a raised exception. *)
Definition http : Type := request -> result response.

(** What [async with httpx.AsyncClient() as client] meets: building and
    entering the client may raise before any request, the client's GET
    meets the world, and leaving the block (closing the client) may raise
    after the body is done. *)
Record session : Type := {
  client_enter : result unit;
  client_http : http;
  client_leave : result unit
}.

(** A client that is built, entered and left without failure. *)
Definition working (world : http) : session :=
  {| client_enter := Ok tt; client_http := world; client_leave := Ok tt |}.

(** An [async] function: it runs in a session, may raise, and leaves the
    requests it has sent, in order, behind the ones sent before. *)
Definition async (A : Type) : Type := session -> list request -> result A * list request.

#[global] Instance async_ret : MRet async := fun A a _ sent => (Ok a, sent).
#[global] Instance async_bind : MBind async := fun A B f m world sent =>
  match m world sent with
  | (Ok a, sent') => f a world sent'
  | (Raise e, sent') => (Raise e, sent')
  end.

(** Code that awaits nothing. *)
Definition lift {A : Type} (r : result A) : async A := fun _ sent => (r, sent).

Definition client_get (u : string) (p : option (gmap string value)) (t : Z) : async response :=
  fun world sent =>
    let req := {| url := u; params := p; timeout := t |} in
    (client_http world req, sent ++ [req]).

(** [async with httpx.AsyncClient() as client: body]: a failure to build or
    enter the client is raised before the body runs; after the body, the
    client is left, and a failure there is raised in place of the body's
    result. *)
Definition async_with_client {A : Type} (body : async A) : async A :=
  fun world sent =>
    match client_enter world with
    | Raise e => (Raise e, sent)
    | Ok _ =>
        match body world sent with
        | (r, sent') =>
            match client_leave world with
            | Raise e => (Raise e, sent')
            | Ok _ => (r, sent')
            end
        end
    end.

(** [try: body / except ... as e: handler e]. *)
Definition try_except {A : Type} (body : async A) (handler : exn -> async A) : async A :=
  fun world sent =>
    match body world sent with
    | (Ok a, sent') => (Ok a, sent')
    | (Raise e, sent') => handler e world sent'
    end.

(** The outcome and the requests sent by a call that starts with nothing
    sent, in any session. *)
Definition outcome {A : Type} (m : async A) (env : session) : result A := fst (m env []).
Definition requests {A : Type} (m : async A) (env : session) : list request :=
  snd (m env []).

(** The same with a working client, where only the world of the GET varies:
    the text returned and the requests transmitted. *)
Definition returned {A : Type} (m : async A) (world : http) : result A :=
  outcome m (working world).
Definition transmitted {A : Type} (m : async A) (world : http) : list request :=
  requests m (working world).

(** [httpx.Response.is_success] and [raise_for_status()]: any status outside
    200..299 raises [HTTPStatusError], which carries the response. *)
Definition is_success (r : response) : bool :=
  (200 <=? status_code r) && (status_code r <=? 299).

Definition raise_for_status (r : response) : result unit :=
  if is_success r then Ok tt else Raise (HTTPStatusError (status_code r) (text r)).

(** A world that answers every GET with status 200 and the given decoded
    body, and one where no connection can be made. *)
Definition mock_http (body : value) : http :=
  fun _ => Ok {| status_code := 200; text := ""; json := Ok body |}.

Definition offline : http := fun _ => Raise (RequestError "All connection attempts failed").

(** A session in which the client cannot be built: the process environment
    names a proxy of a scheme that httpx does not know (ALL_PROXY set to
    ftp://proxy.example:21), and the constructor of the client raises. *)
Definition proxy_error : exn :=
  Exception "ValueError" "Unknown scheme for proxy URL URL('ftp://proxy.example:21')".

Definition no_client : session :=
  {| client_enter := Raise proxy_error;
     client_http := offline;
     client_leave := Ok tt |}.

(** ** server.py *)

Definition API_BASE : string := "https://api.energidataservice.dk".
Definition DEFAULT_TIMEOUT : Z := 30.

Definition error_dict (msg : string) : value := VDict [("error", VStr msg)].

Definition make_api_request (endpoint : string) (p : option (gmap string value)) : async value :=
  let u := API_BASE +:+ "/" +:+ endpoint in
  async_with_client
    (try_except
       (response ← client_get u p DEFAULT_TIMEOUT;
        _ ← lift (raise_for_status response);
        lift (json response))
       (fun e =>
          match e with
          | HTTPStatusError code body =>
              mret (VDict [("error", VStr ("HTTP error " +:+ pretty code +:+ ": " +:+ body))])
          | RequestError msg => mret (VDict [("error", VStr ("Request failed: " +:+ msg))])
          | Exception _ msg => mret (VDict [("error", VStr ("Unexpected error: " +:+ msg))])
          end)).

(** An argument of type [str | None] as the value the function receives. *)
Definition arg (s : option string) : value :=
  match s with
  | Some t => VStr t
  | None => VNone
  end.

(** [if a: params[key] = a]. *)
Definition assign_if (key : string) (a : value) (p : gmap string value) : gmap string value :=
  if truthy a then <[key := a]> p else p.

Definition is_none (v : value) : bool :=
  match v with
  | VNone => true
  | _ => false
  end.

(** The default of [price_area] in [get_electricity_prices]. *)
Definition DEFAULT_PRICE_AREA : string := "DK1".

Section Server.

(** [str(v)] for a float, a list or a dict is left to the Python runtime:
    the shortest repr of the float, the reprs of the elements. *)
Variable py_repr : value -> string.

(** [int(s)] on a command-line argument is the runtime's too: the integer
    that the text spells, or the [ValueError] it raises. *)
Variable py_int : string -> result Z.

(** [str(v)], which is what [f"{v}"] inserts. *)
Definition py_str (v : value) : string :=
  match v with
  | VNone => "None"
  | VBool b => if b then "True" else "False"
  | VInt z => pretty z
  | VStr s => s
  | _ => py_repr v
  end.

Definition format_records (records : value) (max_records : Z) : result string :=
  if negb (truthy records) then Ok "No records found." else
  sliced ← py_slice_to records max_records;
  formatted ← for_each (enumerate sliced) (fun '(i, record) formatted =>
    let record_str := "Record " +:+ pretty (i + 1) +:+ ":" +:+ NL in
    items ← py_items record;
    record_str ← for_each items (fun '(key, v) record_str =>
      Ok (record_str +:+ "  " +:+ key +:+ ": " +:+ py_str v +:+ NL)) record_str;
    Ok (formatted ++ [record_str])) [];
  let result := String.concat NL formatted in
  n ← py_len records;
  if max_records <? n
  then Ok (result +:+ NL +:+ "... and " +:+ pretty (n - max_records) +:+ " more records")
  else Ok result.

Definition list_datasets : async string :=
  data ← make_api_request "meta/dataset" None;
  lift (
    if is_none data then Ok "Unable to fetch dataset list from Energinet Data Service." else
    has_error ← py_in "error" data;
    if has_error : bool then (e ← py_getitem data "error"; Ok ("Error: " +:+ py_str e)) else
    datasets ← py_get data "result" (VList []);
    if negb (truthy datasets) then Ok "No datasets found." else
    each ← py_iter datasets;
    dataset_names ← for_each each (fun ds dataset_names =>
      name ← py_get ds "name" (VStr "Unknown");
      description ← py_get ds "description" (VStr "No description");
      Ok (dataset_names ++ ["- " +:+ py_str name +:+ ": " +:+ py_str description])) [];
    n ← py_len datasets;
    Ok ("Available datasets (" +:+ pretty n +:+ " total):" +:+ NL +:+ NL +:+
        String.concat NL dataset_names)).

Definition get_dataset_metadata (dataset_name : string) : async string :=
  data ← make_api_request ("meta/" +:+ dataset_name) None;
  lift (
    if is_none data
    then Ok ("Unable to fetch metadata for dataset '" +:+ dataset_name +:+ "'.") else
    has_error ← py_in "error" data;
    if has_error : bool then (e ← py_getitem data "error"; Ok ("Error: " +:+ py_str e)) else
    result ← py_get data "result" (VDict []);
    if negb (truthy result)
    then Ok ("No metadata found for dataset '" +:+ dataset_name +:+ "'.") else
    let output := ["Dataset: " +:+ dataset_name] in
    has_description ← py_in "description" result;
    output ← (if has_description : bool
              then d ← py_getitem result "description";
                   Ok (output ++ ["Description: " +:+ py_str d])
              else Ok output);
    has_count ← py_in "recordCount" result;
    output ← (if has_count : bool
              then c ← py_getitem result "recordCount";
                   Ok (output ++ ["Total Records: " +:+ py_str c])
              else Ok output);
    columns ← py_get result "columns" (VList []);
    output ← (if truthy columns
              then each ← py_iter columns;
                   for_each each (fun col output =>
                     col_name ← py_get col "name" (VStr "Unknown");
                     col_type ← py_get col "type" (VStr "Unknown");
                     col_desc ← py_get col "description" (VStr "No description");
                     Ok (output ++ ["  - " +:+ py_str col_name +:+ " (" +:+ py_str col_type +:+
                                    "): " +:+ py_str col_desc]))
                     (output ++ [NL +:+ "Columns:"])
              else Ok output);
    Ok (String.concat NL output)).

Definition query_dataset (dataset_name : string) (limit offset : Z)
    (start end_ filter columns sort : option string) : async string :=
  let p : gmap string value := {[ "limit" := VInt (Z.min limit 100) ]} in
  let p := if 0 <? offset then <["offset" := VInt offset]> p else p in
  let p := assign_if "start" (arg start) p in
  let p := assign_if "end" (arg end_) p in
  let p := assign_if "filter" (arg filter) p in
  let p := assign_if "columns" (arg columns) p in
  let p := assign_if "sort" (arg sort) p in
  data ← make_api_request ("dataset/" +:+ dataset_name) (Some p);
  lift (
    if is_none data then Ok ("Unable to query dataset '" +:+ dataset_name +:+ "'.") else
    has_error ← py_in "error" data;
    if has_error : bool then (e ← py_getitem data "error"; Ok ("Error: " +:+ py_str e)) else
    total ← py_get data "total" (VInt 0);
    records ← py_get data "records" (VList []);
    let output := ["Dataset: " +:+ dataset_name] in
    let output := output ++ ["Total matching records: " +:+ py_str total] in
    n ← py_len records;
    let output := output ++ ["Records returned: " +:+ pretty n] in
    let output := output ++ [""] in
    body ← format_records records limit;
    let output := output ++ [body] in
    Ok (String.concat NL output)).

(** The body of the loop of [get_electricity_prices], for one record. *)
Definition get_electricity_prices_record (record : value) (output : list string)
    : result (list string) :=
  hour_utc ← py_get record "HourUTC" (VStr "Unknown");
  hour_dk ← py_get record "HourDK" hour_utc;
  price_dkk ← py_get record "SpotPriceDKK" (VStr "N/A");
  price_eur ← py_get record "SpotPriceEUR" (VStr "N/A");
  price_dkk ← (if is_number price_dkk
               then s ← py_format_f 2 price_dkk; Ok (VStr s)
               else Ok price_dkk);
  price_eur ← (if is_number price_eur
               then s ← py_format_f 2 price_eur; Ok (VStr s)
               else Ok price_eur);
  Ok (output ++ [py_str hour_dk +:+ ": " +:+ py_str price_dkk +:+ " DKK/MWh (" +:+
                 py_str price_eur +:+ " EUR/MWh)"]).

Definition get_electricity_prices (price_area : string) (limit : Z)
    (start end_ : option string) : async string :=
  let p : gmap string value :=
    <["columns" := VStr "HourUTC,HourDK,PriceArea,SpotPriceDKK,SpotPriceEUR"]>
    (<["sort" := VStr "HourUTC DESC"]>
    (<["filter" := VStr (DQUOTE +:+ "PriceArea" +:+ DQUOTE +:+ " = " +:+
                          DQUOTE +:+ price_area +:+ DQUOTE)]>
    {[ "limit" := VInt (Z.min limit 100) ]})) in
  let p := assign_if "start" (arg start) p in
  let p := assign_if "end" (arg end_) p in
  data ← make_api_request "dataset/Elspotprices" (Some p);
  lift (
    if is_none data then Ok ("Unable to fetch electricity prices for " +:+ price_area +:+ ".") else
    has_error ← py_in "error" data;
    if has_error : bool then (e ← py_getitem data "error"; Ok ("Error: " +:+ py_str e)) else
    records ← py_get data "records" (VList []);
    if negb (truthy records)
    then Ok ("No electricity prices found for " +:+ price_area +:+ ".") else
    let output := ["Electricity Spot Prices for " +:+ price_area] in
    let output := output ++ ["(Prices in DKK/MWh and EUR/MWh)" +:+ NL] in
    each ← py_iter records;
    output ← for_each each get_electricity_prices_record output;
    Ok (String.concat NL output)).

(** The body of the loop of [get_co2_emissions]. *)
Definition get_co2_emissions_record (record : value) (output : list string)
    : result (list string) :=
  time_utc ← py_get record "Minutes5UTC" (VStr "Unknown");
  time ← py_get record "Minutes5DK" time_utc;
  area ← py_get record "PriceArea" (VStr "Unknown");
  co2 ← py_get record "CO2Emission" (VStr "N/A");
  co2 ← (if is_number co2 then s ← py_format_f 1 co2; Ok (VStr s) else Ok co2);
  Ok (output ++ [py_str time +:+ " (" +:+ py_str area +:+ "): " +:+ py_str co2 +:+ " g/kWh"]).

Definition get_co2_emissions (limit : Z) (start end_ : option string) : async string :=
  let p : gmap string value :=
    <["sort" := VStr "Minutes5UTC DESC"]> {[ "limit" := VInt (Z.min limit 100) ]} in
  let p := assign_if "start" (arg start) p in
  let p := assign_if "end" (arg end_) p in
  data ← make_api_request "dataset/CO2Emis" (Some p);
  lift (
    if is_none data then Ok "Unable to fetch CO2 emission data." else
    has_error ← py_in "error" data;
    if has_error : bool then (e ← py_getitem data "error"; Ok ("Error: " +:+ py_str e)) else
    records ← py_get data "records" (VList []);
    if negb (truthy records) then Ok "No CO2 emission data found." else
    let output := ["CO2 Emission Intensity (g CO2/kWh)" +:+ NL] in
    each ← py_iter records;
    output ← for_each each get_co2_emissions_record output;
    Ok (String.concat NL output)).

(** The body of the loop of [get_production_consumption]. *)
Definition get_production_consumption_record (record : value) (output : list string)
    : result (list string) :=
  hour_utc ← py_get record "HourUTC" (VStr "Unknown");
  hour ← py_get record "HourDK" hour_utc;
  area ← py_get record "PriceArea" (VStr "Unknown");
  onshore_wind ← py_get record "OnshoreWindPower" (VInt 0);
  let onshore_wind := py_or onshore_wind (VInt 0) in
  offshore_wind ← py_get record "OffshoreWindPower" (VInt 0);
  let offshore_wind := py_or offshore_wind (VInt 0) in
  solar ← py_get record "SolarPower" (VInt 0);
  let solar := py_or solar (VInt 0) in
  total_wind ← py_add onshore_wind offshore_wind;
  gross_consumption ← py_get record "GrossConsumption" (VStr "N/A");
  let output := output ++ [py_str hour +:+ " (" +:+ py_str area +:+ "):"] in
  total_txt ← py_format_f 1 total_wind;
  onshore_txt ← py_format_f 1 onshore_wind;
  offshore_txt ← py_format_f 1 offshore_wind;
  let output := output ++ ["  Wind: " +:+ total_txt +:+ " MWh (Onshore: " +:+ onshore_txt +:+
                           ", Offshore: " +:+ offshore_txt +:+ ")"] in
  solar_txt ← py_format_f 1 solar;
  let output := output ++ ["  Solar: " +:+ solar_txt +:+ " MWh"] in
  let output := output ++ ["  Gross Consumption: " +:+ py_str gross_consumption] in
  let output := output ++ [""] in
  Ok output.

Definition get_production_consumption (price_area : option string) (limit : Z)
    (start end_ : option string) : async string :=
  let p : gmap string value :=
    <["sort" := VStr "HourUTC DESC"]> {[ "limit" := VInt (Z.min limit 100) ]} in
  let p := if truthy (arg price_area)
           then <["filter" := VStr (DQUOTE +:+ "PriceArea" +:+ DQUOTE +:+ " = " +:+
                                    DQUOTE +:+ py_str (arg price_area) +:+ DQUOTE)]> p
           else p in
  let p := assign_if "start" (arg start) p in
  let p := assign_if "end" (arg end_) p in
  data ← make_api_request "dataset/ProductionConsumptionSettlement" (Some p);
  lift (
    if is_none data then Ok "Unable to fetch production/consumption data." else
    has_error ← py_in "error" data;
    if has_error : bool then (e ← py_getitem data "error"; Ok ("Error: " +:+ py_str e)) else
    records ← py_get data "records" (VList []);
    if negb (truthy records) then Ok "No production/consumption data found." else
    let output := ["Electricity Production and Consumption (MWh)" +:+ NL] in
    each ← py_iter records;
    output ← for_each each get_production_consumption_record output;
    Ok (String.concat NL output)).

(** *** The entry point *)

(** What [main] acts on: the process environment, the standard output, the
    host and port of [mcp.settings], and the transports [mcp.run] was called
    with. *)
Record process : Type := {
  environ : gmap string string;
  stdout : list string;
  settings_host : string;
  settings_port : Z;
  served : list string
}.

(** [x in xs] on a list of strings. *)
Definition in_argv (x : string) (xs : list string) : bool :=
  existsb (String.eqb x) xs.

(** [xs[i]]: a negative index counts from the end. *)
Definition py_index (xs : list string) (i : Z) : result string :=
  let n := Z.of_nat (List.length xs) in
  let k := if i <? 0 then i + n else i in
  if (0 <=? k) && (k <? n)
  then match nth_error xs (Z.to_nat k) with
       | Some x => Ok x
       | None => Raise (Exception "IndexError" "list index out of range")
       end
  else Raise (Exception "IndexError" "list index out of range").

(** The loop of [main] over [enumerate(sys.argv)], for one argument; the
    state is the pair of [host] and [port]. *)
Definition main_argument (argv : list string) (item : Z * string) (state : string * Z)
    : result (string * Z) :=
  let '(i, a) := item in
  let '(host, port) := state in
  if String.eqb a "--host" && (i + 1 <? Z.of_nat (List.length argv))
  then host ← py_index argv (i + 1); Ok (host, port)
  else if String.eqb a "--port" && (i + 1 <? Z.of_nat (List.length argv))
  then text ← py_index argv (i + 1); port ← py_int text; Ok (host, port)
  else Ok (host, port).

Definition main (argv : list string) (proc : process) : result unit * process :=
  if in_argv "--http" argv || in_argv "--sse" argv
  then
    let host := "0.0.0.0" in
    let port := 9000 in
    match for_each (enumerate argv) (main_argument argv) (host, port) with
    | Raise e => (Raise e, proc)
    | Ok (host, port) =>
        let transport := if in_argv "--http" argv then "streamable-http" else "sse" in
        let env := <["UVICORN_HOST" := host]> (environ proc) in
        let env := <["UVICORN_PORT" := pretty port]> env in
        let out := stdout proc ++
          ["Starting MCP server with " +:+ transport +:+ " transport on http://" +:+
           host +:+ ":" +:+ pretty port] in
        (Ok tt,
         {| environ := env; stdout := out; settings_host := host; settings_port := port;
            served := served proc ++ [transport] |})
    end
  else
    (Ok tt,
     {| environ := environ proc; stdout := stdout proc;
        settings_host := settings_host proc; settings_port := settings_port proc;
        served := served proc ++ ["stdio"] |}).

(** ** The vocabulary of the specification *)

(** A rendered block, in the specification's words: the line
    [Record <1-based index>:], then one indented [key: value] line per
    field, in the record's own key order. *)
Definition field_line (field : string * value) : string :=
  "  " +:+ fst field +:+ ": " +:+ py_str (snd field) +:+ NL.

Definition record_block (position : nat) (fields : list (string * value)) : string :=
  "Record " +:+ pretty (Z.of_nat position + 1) +:+ ":" +:+ NL +:+
  String.concat "" (map field_line fields).

Definition record_blocks (records : list (list (string * value))) : list string :=
  imap record_block records.

(** The trailing line that tells how many records were left out. *)
Definition omission_summary (omitted : Z) : string :=
  NL +:+ "... and " +:+ pretty omitted +:+ " more records".

Definition ends_with (suffix s : string) : Prop :=
  exists front, s = front +:+ suffix.

Definition begins_with (start : string) (r : result string) : Prop :=
  exists s, r = Ok s /\ String.prefix start s = true.

(** The call sent exactly one request, and its query parameters bind [key]
    as [bound] says ([None]: the key is left out). *)
Definition sends (sent : list request) (key : string) (bound : option value) : Prop :=
  exists req p, sent = [req] /\ params req = Some p /\ p !! key = bound.

(** The transmitted [limit] is an integer of the range 1..100. *)
Definition limit_in_range (req : request) : bool :=
  match params req with
  | Some p =>
      match p !! "limit" with
      | Some (VInt v) => (1 <=? v) && (v <=? 100)
      | _ => false
      end
  | None => false
  end.

(** The filter expression that selects a price area. *)
Definition price_area_filter (price_area : string) : value :=
  VStr (DQUOTE +:+ "PriceArea" +:+ DQUOTE +:+ " = " +:+ DQUOTE +:+ price_area +:+ DQUOTE).

Definition last_char (s : string) : option ascii :=
  last (list_ascii_of_string s).

(** The request that [make_api_request] hands to the client. *)
Definition request_for (endpoint : string) (p : option (gmap string value)) : request :=
  {| url := API_BASE +:+ "/" +:+ endpoint; params := p; timeout := DEFAULT_TIMEOUT |}.

(** The error values of the specification: status code and body text for an
    HTTP status error, the failure's description for a transport failure, a
    generic description for anything else. *)
Definition error_value (e : exn) : value :=
  match e with
  | HTTPStatusError code body => error_dict ("HTTP error " +:+ pretty code +:+ ": " +:+ body)
  | RequestError msg => error_dict ("Request failed: " +:+ msg)
  | Exception _ msg => error_dict ("Unexpected error: " +:+ msg)
  end.

(** A stand-in for the runtime's repr, for examples that print no float,
    list or dict through [str]. *)
Definition no_repr (v : value) : string := "".

(** The request executor returns [v] whatever the endpoint and parameters. *)
Definition executor_returns (world : http) (v : value) : Prop :=
  forall endpoint p, returned (make_api_request endpoint p) world = Ok v.

(** A result that is a raised exception. *)
Definition raises {A : Type} (r : result A) : Prop := exists e, r = Raise e.


(** A decoded body that is a JSON object or null: the two shapes the tools
    provide for. *)
Definition object_or_null (v : value) : bool :=
  match v with
  | VNone | VDict _ => true
  | _ => false
  end.

(** The key is absent from the dict or bound to a falsy value. *)
Definition absent_or_falsy (d : list (string * value)) (key : string) : bool :=
  match dict_get d key with
  | Some v => negb (truthy v)
  | None => true
  end.

(** A number that the fixed-point format code accepts: any float, and an
    integer that converts to a float. *)
Definition fits_float (v : value) : bool :=
  match v with
  | VInt z => match float_of_int z with Ok _ => true | Raise _ => false end
  | _ => true
  end.

(** The value of a power field as the production report reads it:
    [record.get(key, 0) or 0]. *)
Definition power (fields : list (string * value)) (key : string) : value :=
  py_or (dict_get_or fields key (VInt 0)) (VInt 0).

(** A value that the fixed-point format code shows: a number that converts
    to a float. *)
Definition shown (v : value) : bool := is_number v && fits_float v.

(** The line of [list_datasets] for one dataset. *)
Definition dataset_line (ds : list (string * value)) : string :=
  "- " +:+ py_str (dict_get_or ds "name" (VStr "Unknown")) +:+ ": " +:+
  py_str (dict_get_or ds "description" (VStr "No description")).

(** The line of [get_dataset_metadata] for one column. *)
Definition column_line (col : list (string * value)) : string :=
  "  - " +:+ py_str (dict_get_or col "name" (VStr "Unknown")) +:+ " (" +:+
  py_str (dict_get_or col "type" (VStr "Unknown")) +:+ "): " +:+
  py_str (dict_get_or col "description" (VStr "No description")).

(** The text of a numeric field as the price and emission reports show it:
    a number through the format code, anything else through [str]. *)
Definition number_text (decimals : nat) (v : value) : string :=
  if is_number v
  then match py_format_f decimals v with Ok s => s | Raise _ => "" end
  else py_str v.

(** The lines of the price and emission reports for one record. *)
Definition price_line (r : list (string * value)) : string :=
  py_str (dict_get_or r "HourDK" (dict_get_or r "HourUTC" (VStr "Unknown"))) +:+ ": " +:+
  number_text 2 (dict_get_or r "SpotPriceDKK" (VStr "N/A")) +:+ " DKK/MWh (" +:+
  number_text 2 (dict_get_or r "SpotPriceEUR" (VStr "N/A")) +:+ " EUR/MWh)".

Definition co2_line (r : list (string * value)) : string :=
  py_str (dict_get_or r "Minutes5DK" (dict_get_or r "Minutes5UTC" (VStr "Unknown"))) +:+
  " (" +:+ py_str (dict_get_or r "PriceArea" (VStr "Unknown")) +:+ "): " +:+
  number_text 1 (dict_get_or r "CO2Emission" (VStr "N/A")) +:+ " g/kWh".

(** The lines of [get_dataset_metadata] after the heading. *)
Definition metadata_lines (meta : list (string * value))
    (columns : list (list (string * value))) : list string :=
  match dict_get meta "description" with
  | Some v => ["Description: " +:+ py_str v]
  | None => []
  end ++
  match dict_get meta "recordCount" with
  | Some v => ["Total Records: " +:+ py_str v]
  | None => []
  end ++
  match columns with
  | [] => []
  | _ => (NL +:+ "Columns:") :: map column_line columns
  end.

(** The names of the query parameters of the upstream API. *)
Definition parameter_names : gset string :=
  {[ "limit"; "offset"; "start"; "end"; "filter"; "columns"; "sort" ]}.

(** The arguments that follow an occurrence of [flag] on the command line,
    in order. *)
Fixpoint following (flag : string) (argv : list string) : list string :=
  match argv with
  | [] => []
  | a :: rest =>
      (if String.eqb a flag then match rest with b :: _ => [b] | [] => [] end else [])
      ++ following flag rest
  end.

(** [int] applied to each text in turn; the first failure is raised. *)
Fixpoint parse_all (texts : list string) : result (list Z) :=
  match texts with
  | [] => Ok []
  | t :: rest => n ← py_int t; ns ← parse_all rest; Ok (n :: ns)
  end.

(** A decimal reader for the examples: digits only. *)
Definition digits_only (s : string) : result Z :=
  if forallb (fun c => (48 <=? nat_of_ascii c)%nat && (nat_of_ascii c <=? 57)%nat)
       (list_ascii_of_string s) && negb (String.eqb s "")
  then Ok (fold_left (fun n c => 10 * n + (Z.of_nat (nat_of_ascii c) - 48))
             (list_ascii_of_string s) 0)
  else ValueError "invalid literal for int() with base 10".

Definition fresh_process : process :=
  {| environ := ∅; stdout := []; settings_host := "127.0.0.1"; settings_port := 8000;
     served := [] |}.

(** A lookup in parameters built by insertions and guarded assignments;
    [skip] is the lemma that steps over an assignment to another key. *)
Ltac lookup_params skip :=
  repeat (rewrite skip by discriminate);
  repeat match goal with
         | |- context [if ?b then _ else _] => destruct b
         end;
  repeat (rewrite lookup_insert_ne by discriminate);
  first [ apply lookup_insert_eq
        | apply lookup_singleton_eq
        | apply lookup_singleton_ne; discriminate
        | reflexivity ].

(** [sends] from the lemma that tells what the tool transmitted. *)
Ltac sends_by transmitted_lemma skip :=
  eexists _, _; split; [apply transmitted_lemma | split; [reflexivity | lookup_params skip]].

(** ** The monads *)

Lemma outcome_bind_lift {A B : Type} (m : async A) (f : A -> result B) (env : session) :
  outcome (m ≫= (fun a => lift (f a))) env = outcome m env ≫= f.
Proof.
  unfold outcome, mbind, async_bind, result_bind, lift.
  destruct (m env []) as [[a | e] sent]; reflexivity.
Qed.

Lemma requests_bind_lift {A B : Type} (m : async A) (f : A -> result B) (env : session) :
  requests (m ≫= (fun a => lift (f a))) env = requests m env.
Proof.
  unfold requests, mbind, async_bind, lift.
  destruct (m env []) as [[a | e] sent]; reflexivity.
Qed.

Lemma returned_bind_lift {A B : Type} (m : async A) (f : A -> result B) (world : http) :
  returned (m ≫= (fun a => lift (f a))) world = returned m world ≫= f.
Proof. apply outcome_bind_lift. Qed.

Lemma transmitted_bind_lift {A B : Type} (m : async A) (f : A -> result B) (world : http) :
  transmitted (m ≫= (fun a => lift (f a))) world = transmitted m world.
Proof. apply requests_bind_lift. Qed.

(** ** The request executor *)

Lemma make_api_request_run (endpoint : string) (p : option (gmap string value))
    (env : session) (sent : list request) :
  make_api_request endpoint p env sent =
  match client_enter env with
  | Raise e => (Raise e, sent)
  | Ok _ =>
      (match client_leave env with
       | Raise e => Raise e
       | Ok _ =>
           Ok match client_http env (request_for endpoint p) with
              | Ok r =>
                  if is_success r
                  then match json r with Ok v => v | Raise e => error_value e end
                  else error_value (HTTPStatusError (status_code r) (text r))
              | Raise e => error_value e
              end
       end,
       sent ++ [request_for endpoint p])
  end.
Proof.
  unfold make_api_request, async_with_client, try_except, client_get, mbind, async_bind,
    lift, raise_for_status.
  fold (request_for endpoint p).
  destruct (client_enter env) as [u | e0]; [| reflexivity].
  destruct (client_http env (request_for endpoint p)) as [r | e]; simpl.
  - destruct (is_success r); simpl.
    + destruct (json r) as [v | e]; [| destruct e]; destruct (client_leave env); reflexivity.
    + destruct (client_leave env); reflexivity.
  - destruct e; destruct (client_leave env); reflexivity.
Qed.

Lemma transmitted_make_api_request (endpoint : string) (p : option (gmap string value))
    (world : http) :
  transmitted (make_api_request endpoint p) world = [request_for endpoint p].
Proof. unfold transmitted, requests. rewrite make_api_request_run. reflexivity. Qed.

Lemma returned_make_api_request (endpoint : string) (p : option (gmap string value))
    (world : http) :
  returned (make_api_request endpoint p) world =
  Ok match world (request_for endpoint p) with
     | Ok r =>
         if is_success r
         then match json r with Ok v => v | Raise e => error_value e end
         else error_value (HTTPStatusError (status_code r) (text r))
     | Raise e => error_value e
     end.
Proof. unfold returned, outcome. rewrite make_api_request_run. reflexivity. Qed.

(** C5, as the code has it: with a client that is entered and left, the
    executor turns every failure of the call into an error value and raises
    nothing: a status outside 2xx gives the mapping of [error] to the status
    code and the body text, a transport failure the mapping to the failure's
    description, any other exception of the call or of the decoder the
    mapping to a generic description.  The [async with] line stands outside
    the [try]: a failure to build or enter the client is raised to the
    caller and no request is sent, and a failure on leaving the block is
    raised to the caller after the request. *)
Theorem make_api_request_outcomes (endpoint : string) (p : option (gmap string value))
    (env : session) :
  let req := request_for endpoint p in
  let answer := outcome (make_api_request endpoint p) env in
  (client_enter env = Ok tt -> client_leave env = Ok tt ->
   (forall r, client_http env req = Ok r -> is_success r = false ->
      answer = Ok (VDict [("error", VStr ("HTTP error " +:+ pretty (status_code r) +:+ ": " +:+
                                            text r))])) /\
   (forall msg, client_http env req = Raise (RequestError msg) ->
      answer = Ok (VDict [("error", VStr ("Request failed: " +:+ msg))])) /\
   (forall cls msg, client_http env req = Raise (Exception cls msg) ->
      answer = Ok (VDict [("error", VStr ("Unexpected error: " +:+ msg))])) /\
   (forall r cls msg, client_http env req = Ok r -> is_success r = true ->
      json r = Raise (Exception cls msg) ->
      answer = Ok (VDict [("error", VStr ("Unexpected error: " +:+ msg))])) /\
   (exists v, answer = Ok v) /\
   requests (make_api_request endpoint p) env = [req]) /\
  (forall e, client_enter env = Raise e ->
     answer = Raise e /\ requests (make_api_request endpoint p) env = []) /\
  (forall e, client_enter env = Ok tt -> client_leave env = Raise e ->
     answer = Raise e /\ requests (make_api_request endpoint p) env = [req]).
Proof.
  intros req answer. subst req answer.
  unfold outcome, requests. rewrite make_api_request_run.
  split; [| split].
  - intros Henter Hleave. rewrite Henter, Hleave. simpl fst. simpl snd.
    repeat split.
    + intros r Hr Hs. rewrite Hr, Hs. reflexivity.
    + intros msg Hr. rewrite Hr. reflexivity.
    + intros cls msg Hr. rewrite Hr. reflexivity.
    + intros r cls msg Hr Hs Hj. rewrite Hr, Hs, Hj. reflexivity.
    + eexists. reflexivity.
  - intros e Henter. rewrite Henter. split; reflexivity.
  - intros e Henter Hleave. rewrite Henter, Hleave. split; reflexivity.
Qed.

Lemma mock_http_returns (v : value) : executor_returns (mock_http v) v.
Proof. intros endpoint p. rewrite returned_make_api_request. reflexivity. Qed.

(** C9, as the code has it: whenever the request executor returns, it
    returns the decoded JSON value of a 2xx response or a mapping with an
    [error] key; it returns [None] exactly when the client is entered and
    left without failure and a 2xx response decodes to JSON null; the tools'
    guard for [None] then answers with the tool's own message. *)
Theorem make_api_request_none_iff_null (endpoint dataset_name price_area : string)
    (p : option (gmap string value)) (env : session) (world : http) (limit offset : Z)
    (area start end_ filter columns sort : option string) :
  let req := request_for endpoint p in
  let answer := outcome (make_api_request endpoint p) env in
  (forall v, answer = Ok v ->
     (exists r, client_http env req = Ok r /\ is_success r = true /\ json r = Ok v) \/
     (exists msg, v = VDict [("error", VStr msg)])) /\
  (answer = Ok VNone <->
   client_enter env = Ok tt /\ client_leave env = Ok tt /\
   exists r, client_http env req = Ok r /\ is_success r = true /\ json r = Ok VNone) /\
  (executor_returns world VNone ->
   returned list_datasets world =
     Ok "Unable to fetch dataset list from Energinet Data Service." /\
   returned (get_dataset_metadata dataset_name) world =
     Ok ("Unable to fetch metadata for dataset '" +:+ dataset_name +:+ "'.") /\
   returned (query_dataset dataset_name limit offset start end_ filter columns sort) world =
     Ok ("Unable to query dataset '" +:+ dataset_name +:+ "'.") /\
   returned (get_electricity_prices price_area limit start end_) world =
     Ok ("Unable to fetch electricity prices for " +:+ price_area +:+ ".") /\
   returned (get_co2_emissions limit start end_) world =
     Ok "Unable to fetch CO2 emission data." /\
   returned (get_production_consumption area limit start end_) world =
     Ok "Unable to fetch production/consumption data.").
Proof.
  intros req answer. subst req answer.
  unfold outcome. rewrite make_api_request_run.
  split; [| split].
  - intros v. destruct (client_enter env) as [u | e0]; [| discriminate].
    destruct (client_leave env) as [u' | e1]; [| discriminate].
    simpl fst. intros H. injection H as <-.
    destruct (client_http env (request_for endpoint p)) as [r | e] eqn:Hw.
    + destruct (is_success r) eqn:Hs.
      * destruct (json r) as [v | e] eqn:Hj.
        -- left. exists r. repeat split; first [assumption | reflexivity].
        -- right. destruct e; eexists; reflexivity.
      * right. eexists. reflexivity.
    + right. destruct e; eexists; reflexivity.
  - split.
    + destruct (client_enter env) as [[] | e0]; [| discriminate].
      destruct (client_leave env) as [[] | e1]; [| discriminate].
      simpl fst. intros H. injection H as H.
      split; [reflexivity | split; [reflexivity |]].
      destruct (client_http env (request_for endpoint p)) as [r | e] eqn:Hw.
      * destruct (is_success r) eqn:Hs; [| discriminate].
        destruct (json r) as [v | e] eqn:Hj; [| destruct e; discriminate].
        subst v. exists r. repeat split; assumption.
      * destruct e; discriminate.
    + intros (Henter & Hleave & r & Hw & Hs & Hj).
      rewrite Henter, Hleave, Hw, Hs, Hj. reflexivity.
  - intros H.
    unfold list_datasets, get_dataset_metadata, query_dataset, get_electricity_prices,
      get_co2_emissions, get_production_consumption.
    cbv zeta. rewrite !returned_bind_lift, !H. repeat split.
Qed.

(** ** Errors of the request executor *)

(** C4: when the request executor returns the mapping with [error] bound
    to [boom], each of the six tools returns a text that begins with
    [Error: boom]. *)
Theorem tools_report_error (world : http) (dataset_name price_area : string)
    (limit offset : Z) (area start end_ filter columns sort : option string) :
  executor_returns world (error_dict "boom") ->
  begins_with "Error: boom" (returned list_datasets world) /\
  begins_with "Error: boom" (returned (get_dataset_metadata dataset_name) world) /\
  begins_with "Error: boom"
    (returned (query_dataset dataset_name limit offset start end_ filter columns sort) world) /\
  begins_with "Error: boom" (returned (get_electricity_prices price_area limit start end_) world) /\
  begins_with "Error: boom" (returned (get_co2_emissions limit start end_) world) /\
  begins_with "Error: boom" (returned (get_production_consumption area limit start end_) world).
Proof.
  intros H.
  unfold list_datasets, get_dataset_metadata, query_dataset, get_electricity_prices,
    get_co2_emissions, get_production_consumption.
  cbv zeta. rewrite !returned_bind_lift, !H.
  repeat split; exists "Error: boom"; split; reflexivity.
Qed.

(** ** The record formatter *)

(** C8: on an empty record sequence the formatter returns the fixed message,
    whatever the cap. *)
Theorem format_records_empty (max_records : Z) :
  format_records (VList []) max_records = Ok "No records found.".
Proof. reflexivity. Qed.

(** Strings as the formatter builds them. *)

Lemma append_cons (c : ascii) (a b : string) : String c a +:+ b = String c (a +:+ b).
Proof. reflexivity. Qed.

Lemma append_empty_r (s : string) : s +:+ "" = s.
Proof.
  induction s as [| c s IH]; [reflexivity |].
  rewrite append_cons, IH. reflexivity.
Qed.

Lemma append_assoc (a b c : string) : (a +:+ b) +:+ c = a +:+ (b +:+ c).
Proof.
  induction a as [| x a IH]; [reflexivity |].
  rewrite !append_cons, IH. reflexivity.
Qed.

Lemma list_ascii_of_append (a b : string) :
  list_ascii_of_string (a +:+ b) = list_ascii_of_string a ++ list_ascii_of_string b.
Proof.
  induction a as [| x a IH]; [reflexivity |].
  rewrite append_cons. simpl. rewrite IH. reflexivity.
Qed.

Lemma concat_empty_cons (x : string) (xs : list string) :
  String.concat "" (x :: xs) = x +:+ String.concat "" xs.
Proof. destruct xs; simpl; [rewrite append_empty_r |]; reflexivity. Qed.

Lemma last_char_append (a b : string) (c : ascii) :
  last_char b = Some c -> last_char (a +:+ b) = Some c.
Proof.
  unfold last_char. intros H. rewrite list_ascii_of_append, last_app, H. reflexivity.
Qed.

Lemma last_char_ends_with (suffix s : string) (c : ascii) :
  last_char suffix = Some c -> ends_with suffix s -> last_char s = Some c.
Proof. intros H [front ->]. apply last_char_append, H. Qed.

Lemma last_char_omission_summary (n : Z) : last_char (omission_summary n) = Some "s"%char.
Proof. unfold omission_summary. do 3 apply last_char_append. reflexivity. Qed.

Lemma last_char_field_lines (x : string) (fields : list (string * value)) :
  last_char x = Some "010"%char ->
  last_char (x +:+ String.concat "" (map field_line fields)) = Some "010"%char.
Proof.
  revert x. induction fields as [| f fields IH]; intros x Hx; simpl map.
  - simpl. rewrite append_empty_r. exact Hx.
  - rewrite concat_empty_cons, <- append_assoc. apply IH.
    unfold field_line. do 5 apply last_char_append. reflexivity.
Qed.

Lemma last_char_record_block (position : nat) (fields : list (string * value)) :
  last_char (record_block position fields) = Some "010"%char.
Proof.
  unfold record_block. rewrite <- !append_assoc. apply last_char_field_lines.
  apply last_char_append. reflexivity.
Qed.

Lemma last_char_joined (blocks : list string) :
  blocks <> [] ->
  Forall (fun b => last_char b = Some "010"%char) blocks ->
  last_char (String.concat NL blocks) = Some "010"%char.
Proof.
  induction blocks as [| b blocks IH]; intros Hne Hall; [congruence |].
  inversion Hall as [| ? ? Hb Hrest]; subst.
  destruct blocks as [| b' blocks]; [exact Hb |].
  change (String.concat NL (b :: b' :: blocks))
    with (b +:+ NL +:+ String.concat NL (b' :: blocks)).
  do 2 apply last_char_append. apply IH; [discriminate | exact Hrest].
Qed.

Lemma record_blocks_end_in_newline (records : list (list (string * value))) :
  Forall (fun b => last_char b = Some "010"%char) (record_blocks records).
Proof.
  unfold record_blocks. apply Forall_forall. intros b Hb.
  apply list_elem_of_lookup in Hb. destruct Hb as [i Hi].
  rewrite list_lookup_imap in Hi.
  destruct (records !! i) as [fields |]; simpl in Hi; [| discriminate].
  injection Hi as <-. apply last_char_record_block.
Qed.

(** The code points of a string are its UTF-8 bytes cut before every byte
    that does not continue a code point: none is empty, and together they
    are the string. *)
Lemma code_points_nonempty (s : string) : Forall (fun p => p <> "") (code_points s).
Proof.
  induction s as [| c rest IH]; [constructor |].
  cbn [code_points]. destruct (code_points rest) as [| [| c' p] ps].
  - repeat constructor; discriminate.
  - constructor; [discriminate | assumption].
  - destruct (is_continuation c').
    + inversion IH; subst. constructor; [discriminate | assumption].
    + constructor; [discriminate | assumption].
Qed.

Lemma code_points_concat (s : string) : String.concat "" (code_points s) = s.
Proof.
  induction s as [| c rest IH]; [reflexivity |].
  cbn [code_points]. destruct (code_points rest) as [| [| c' p] ps] eqn:E.
  - cbn in *. subst. reflexivity.
  - pose proof (code_points_nonempty rest) as H. rewrite E in H. inversion H; congruence.
  - destruct (is_continuation c').
    + rewrite <- IH. destruct ps; reflexivity.
    + rewrite <- IH. reflexivity.
Qed.

(** A letter of two bytes counts once in [len] and is kept whole by a slice. *)
Lemma py_len_counts_code_points :
  let ae := String (ascii_of_nat 195) (String (ascii_of_nat 166) "") in
  py_len (VStr (ae +:+ "b")) = Ok 2 /\
  py_slice_to (VStr (ae +:+ "b")) 1 = Ok [VStr ae].
Proof. split; vm_compute; reflexivity. Qed.

(** The two loops of the formatter. *)
Lemma format_fields_loop (fields : list (string * value)) (record_str : string) :
  for_each fields
    (fun '(key, v) record_str =>
       Ok (record_str +:+ "  " +:+ key +:+ ": " +:+ py_str v +:+ NL)) record_str
  = Ok (record_str +:+ String.concat "" (map field_line fields)).
Proof.
  revert record_str. induction fields as [| [key v] fields IH]; intros record_str.
  - simpl. rewrite append_empty_r. reflexivity.
  - simpl for_each. rewrite IH. simpl map.
    rewrite concat_empty_cons, <- (append_assoc record_str (field_line (key, v))).
    reflexivity.
Qed.

Lemma format_blocks_loop (records : list (list (string * value))) (first : nat)
    (formatted : list string) :
  for_each (enumerate_from (Z.of_nat first) (map VDict records))
    (fun '(i, record) formatted =>
       let record_str := "Record " +:+ pretty (i + 1) +:+ ":" +:+ NL in
       items ← py_items record;
       record_str ← for_each items
         (fun '(key, v) record_str =>
            Ok (record_str +:+ "  " +:+ key +:+ ": " +:+ py_str v +:+ NL)) record_str;
       Ok (formatted ++ [record_str])) formatted
  = Ok (formatted ++ imap (fun i => record_block (first + i)) records).
Proof.
  revert first formatted.
  induction records as [| fields records IH]; intros first formatted.
  - simpl. rewrite app_nil_r. reflexivity.
  - simpl map. simpl enumerate_from. simpl for_each. cbv zeta. simpl py_items.
    unfold mbind at 1, result_bind at 1. rewrite format_fields_loop.
    unfold mbind at 1, result_bind at 1.
    replace (Z.of_nat first + 1) with (Z.of_nat (S first)) by lia.
    rewrite IH, imap_cons, <- app_assoc. simpl.
    do 3 f_equal.
    + unfold record_block. rewrite Nat.add_0_r, !append_assoc.
      replace (Z.of_nat (S first)) with (Z.of_nat first + 1) by lia. reflexivity.
    + apply imap_ext. intros i x _. simpl. f_equal. lia.
Qed.

Lemma slice_keeps (A : Type) (xs : list A) (stop : Z) :
  0 <= stop -> firstn (slice_stop (List.length xs) stop) xs = firstn (Z.to_nat stop) xs.
Proof.
  intros H. unfold slice_stop.
  destruct (stop <? 0) eqn:Hneg; [apply Z.ltb_lt in Hneg; lia |].
  destruct (Z.le_gt_cases stop (Z.of_nat (List.length xs))) as [Hle | Hgt].
  - f_equal. lia.
  - rewrite !firstn_all2 by lia. reflexivity.
Qed.

Lemma format_records_run (records : list (list (string * value))) (max_records : Z) :
  0 <= max_records ->
  records <> [] ->
  format_records (VList (map VDict records)) max_records =
  Ok (String.concat NL (record_blocks (firstn (Z.to_nat max_records) records)) +:+
      (if max_records <? Z.of_nat (List.length records)
       then omission_summary (Z.of_nat (List.length records) - max_records)
       else "")).
Proof.
  intros Hcap Hne. unfold format_records.
  assert (truthy (VList (map VDict records)) = true) as ->
    by (destruct records; [congruence | reflexivity]).
  simpl negb. cbv iota. unfold py_slice_to.
  unfold mbind at 1, result_bind at 1.
  rewrite slice_keeps, firstn_map by exact Hcap.
  unfold enumerate. change 0 with (Z.of_nat 0).
  rewrite (format_blocks_loop _ 0 []).
  unfold mbind at 1, result_bind at 1. simpl app. cbv zeta.
  unfold py_len, mbind, result_bind. rewrite length_map.
  fold (record_blocks (firstn (Z.to_nat max_records) records)).
  destruct (max_records <? Z.of_nat (List.length records)).
  - reflexivity.
  - rewrite append_empty_r. reflexivity.
Qed.

(** C3, for a cap that is not negative: the formatter renders the first
    min(L, C) records as blocks, each the line [Record <1-based index>:]
    followed by one indented [key: value] line per field in key order, joins
    them with line feeds, and ends the text with the omission summary if and
    only if L > C, the count stated being L - C. *)
Theorem format_records_blocks (records : list (list (string * value))) (max_records : Z) :
  0 <= max_records ->
  let L := Z.of_nat (List.length records) in
  let blocks := record_blocks (firstn (Z.to_nat max_records) records) in
  exists out,
    format_records (VList (map VDict records)) max_records = Ok out /\
    Z.of_nat (List.length blocks) = Z.min L max_records /\
    (forall i fields, (i < Z.to_nat max_records)%nat -> records !! i = Some fields ->
       blocks !! i = Some (record_block i fields)) /\
    (records = [] -> out = "No records found.") /\
    (records <> [] ->
       out = String.concat NL blocks +:+
             (if max_records <? L then omission_summary (L - max_records) else "")) /\
    (max_records < L -> ends_with (omission_summary (L - max_records)) out) /\
    ((exists n, ends_with (omission_summary n) out) -> max_records < L).
Proof.
  intros Hcap L blocks.
  assert (Z.of_nat (List.length blocks) = Z.min L max_records) as Hlen.
  { subst blocks L. unfold record_blocks. rewrite length_imap, length_firstn. lia. }
  assert (forall i fields, (i < Z.to_nat max_records)%nat -> records !! i = Some fields ->
            blocks !! i = Some (record_block i fields)) as Hblocks.
  { intros i fields Hi Hrec. subst blocks. unfold record_blocks.
    rewrite list_lookup_imap, lookup_take_lt by exact Hi. rewrite Hrec. reflexivity. }
  destruct records as [| fields records].
  - exists "No records found.". repeat split; try assumption; try congruence.
    + subst L. simpl. lia.
    + intros [n Hn]. apply (last_char_ends_with _ _ _ (last_char_omission_summary n)) in Hn.
      discriminate.
  - set (rs := fields :: records) in *.
    assert (rs <> []) as Hne by discriminate.
    eexists. split; [apply format_records_run; assumption |].
    fold L. fold blocks.
    repeat split; try assumption; try congruence.
    + intros Hlt. apply Z.ltb_lt in Hlt. rewrite Hlt. eexists. reflexivity.
    + intros [n Hn]. destruct (max_records <? L) eqn:Hcmp; [apply Z.ltb_lt; exact Hcmp |].
      exfalso. apply Z.ltb_ge in Hcmp.
      apply (last_char_ends_with _ _ _ (last_char_omission_summary n)) in Hn.
      rewrite append_empty_r in Hn.
      rewrite last_char_joined in Hn; [discriminate | | apply record_blocks_end_in_newline].
      intros Hnil. rewrite Hnil in Hlen. subst L rs. cbn [List.length] in *. lia.
Qed.

(** ** Query parameters *)

Lemma lookup_assign_if_ne (key k : string) (a : value) (p : gmap string value) :
  key <> k -> assign_if key a p !! k = p !! k.
Proof.
  intros Hne. unfold assign_if. destruct (truthy a); [apply lookup_insert_ne, Hne | reflexivity].
Qed.

(** What each tool hands to the client: one request, to its endpoint. *)

Lemma query_dataset_transmitted (world : http) (dataset_name : string) (limit offset : Z)
    (start end_ filter columns sort : option string) :
  transmitted (query_dataset dataset_name limit offset start end_ filter columns sort) world =
  [request_for ("dataset/" +:+ dataset_name)
     (Some (assign_if "sort" (arg sort)
           (assign_if "columns" (arg columns)
           (assign_if "filter" (arg filter)
           (assign_if "end" (arg end_)
           (assign_if "start" (arg start)
           (if 0 <? offset
            then <["offset" := VInt offset]> {[ "limit" := VInt (Z.min limit 100) ]}
            else {[ "limit" := VInt (Z.min limit 100) ]})))))))].
Proof.
  unfold query_dataset. cbv zeta.
  rewrite transmitted_bind_lift, transmitted_make_api_request. reflexivity.
Qed.

Lemma get_electricity_prices_transmitted (world : http) (price_area : string) (limit : Z)
    (start end_ : option string) :
  transmitted (get_electricity_prices price_area limit start end_) world =
  [request_for "dataset/Elspotprices"
     (Some (assign_if "end" (arg end_)
           (assign_if "start" (arg start)
           (<["columns" := VStr "HourUTC,HourDK,PriceArea,SpotPriceDKK,SpotPriceEUR"]>
           (<["sort" := VStr "HourUTC DESC"]>
           (<["filter" := price_area_filter price_area]>
            {[ "limit" := VInt (Z.min limit 100) ]}))))))].
Proof.
  unfold get_electricity_prices. cbv zeta.
  rewrite transmitted_bind_lift, transmitted_make_api_request. reflexivity.
Qed.

Lemma get_co2_emissions_transmitted (world : http) (limit : Z) (start end_ : option string) :
  transmitted (get_co2_emissions limit start end_) world =
  [request_for "dataset/CO2Emis"
     (Some (assign_if "end" (arg end_)
           (assign_if "start" (arg start)
           (<["sort" := VStr "Minutes5UTC DESC"]>
            {[ "limit" := VInt (Z.min limit 100) ]}))))].
Proof.
  unfold get_co2_emissions. cbv zeta.
  rewrite transmitted_bind_lift, transmitted_make_api_request. reflexivity.
Qed.

Lemma get_production_consumption_transmitted (world : http) (price_area : option string)
    (limit : Z) (start end_ : option string) :
  transmitted (get_production_consumption price_area limit start end_) world =
  [request_for "dataset/ProductionConsumptionSettlement"
     (Some (assign_if "end" (arg end_)
           (assign_if "start" (arg start)
           (if truthy (arg price_area)
            then <["filter" := price_area_filter (py_str (arg price_area))]>
                 (<["sort" := VStr "HourUTC DESC"]> {[ "limit" := VInt (Z.min limit 100) ]})
            else <["sort" := VStr "HourUTC DESC"]> {[ "limit" := VInt (Z.min limit 100) ]}))))].
Proof.
  unfold get_production_consumption. cbv zeta.
  rewrite transmitted_bind_lift, transmitted_make_api_request. reflexivity.
Qed.

Lemma query_dataset_sends_limit (world : http) (dataset_name : string) (limit offset : Z)
    (start end_ filter columns sort : option string) :
  sends (transmitted (query_dataset dataset_name limit offset start end_ filter columns sort)
           world)
    "limit" (Some (VInt (Z.min limit 100))).
Proof. sends_by query_dataset_transmitted lookup_assign_if_ne. Qed.

(** C1, as the code has it: each tool that transmits a limit sends
    min(limit, 100), so the transmitted limit never exceeds 100, and it lies
    in the range 1..100 whenever the limit given is at least 1. *)
Theorem limit_capped_at_100 (world : http) (dataset_name price_area : string)
    (limit offset : Z) (area start end_ filter columns sort : option string) :
  let sent_limit := Some (VInt (Z.min limit 100)) in
  sends (transmitted (query_dataset dataset_name limit offset start end_ filter columns sort)
           world) "limit" sent_limit /\
  sends (transmitted (get_electricity_prices price_area limit start end_) world)
    "limit" sent_limit /\
  sends (transmitted (get_co2_emissions limit start end_) world) "limit" sent_limit /\
  sends (transmitted (get_production_consumption area limit start end_) world)
    "limit" sent_limit /\
  Z.min limit 100 <= 100 /\
  (1 <= limit -> 1 <= Z.min limit 100 <= 100).
Proof.
  intros sent_limit. subst sent_limit. repeat split; try lia.
  - apply query_dataset_sends_limit.
  - sends_by get_electricity_prices_transmitted lookup_assign_if_ne.
  - sends_by get_co2_emissions_transmitted lookup_assign_if_ne.
  - sends_by get_production_consumption_transmitted lookup_assign_if_ne.
Qed.

(** C7: [query_dataset] transmits 100 for every limit above 100, and the
    limit itself, unchanged, for every limit from 1 to 100. *)
Theorem query_dataset_limit_clamp (world : http) (dataset_name : string) (limit offset : Z)
    (start end_ filter columns sort : option string) :
  let sent :=
    transmitted (query_dataset dataset_name limit offset start end_ filter columns sort) world in
  (100 < limit -> sends sent "limit" (Some (VInt 100))) /\
  (1 <= limit <= 100 -> sends sent "limit" (Some (VInt limit))).
Proof.
  intros sent. subst sent.
  pose proof (query_dataset_sends_limit world dataset_name limit offset
                start end_ filter columns sort) as Hsent.
  split; intros H.
  - rewrite Z.min_r in Hsent by lia. exact Hsent.
  - rewrite Z.min_l in Hsent by lia. exact Hsent.
Qed.

(** C10, as the code has it: an empty string given for start, end, filter,
    columns or sort is treated exactly as an absent argument by every tool
    that takes it, and so is an empty price area by
    [get_production_consumption]; [get_electricity_prices] always transmits
    the filter built from its price area; [query_dataset] leaves out an
    offset that is zero or negative and transmits one that is positive. *)
Theorem empty_arguments_omitted (world : http) (dataset_name price_area : string)
    (limit offset : Z) (area start end_ filter columns sort : option string) :
  (query_dataset dataset_name limit offset (Some "") end_ filter columns sort =
   query_dataset dataset_name limit offset None end_ filter columns sort /\
   query_dataset dataset_name limit offset start (Some "") filter columns sort =
   query_dataset dataset_name limit offset start None filter columns sort /\
   query_dataset dataset_name limit offset start end_ (Some "") columns sort =
   query_dataset dataset_name limit offset start end_ None columns sort /\
   query_dataset dataset_name limit offset start end_ filter (Some "") sort =
   query_dataset dataset_name limit offset start end_ filter None sort /\
   query_dataset dataset_name limit offset start end_ filter columns (Some "") =
   query_dataset dataset_name limit offset start end_ filter columns None) /\
  (get_electricity_prices price_area limit (Some "") end_ =
   get_electricity_prices price_area limit None end_ /\
   get_electricity_prices price_area limit start (Some "") =
   get_electricity_prices price_area limit start None) /\
  (get_co2_emissions limit (Some "") end_ = get_co2_emissions limit None end_ /\
   get_co2_emissions limit start (Some "") = get_co2_emissions limit start None) /\
  (get_production_consumption (Some "") limit start end_ =
   get_production_consumption None limit start end_ /\
   get_production_consumption area limit (Some "") end_ =
   get_production_consumption area limit None end_ /\
   get_production_consumption area limit start (Some "") =
   get_production_consumption area limit start None) /\
  sends (transmitted (get_electricity_prices price_area limit start end_) world)
    "filter" (Some (price_area_filter price_area)) /\
  (offset <= 0 ->
   sends (transmitted (query_dataset dataset_name limit offset start end_ filter columns sort)
            world) "offset" None) /\
  (0 < offset ->
   sends (transmitted (query_dataset dataset_name limit offset start end_ filter columns sort)
            world) "offset" (Some (VInt offset))).
Proof.
  split; [repeat split |].
  split; [repeat split |].
  split; [repeat split |].
  split; [repeat split |].
  split; [| split].
  - sends_by get_electricity_prices_transmitted lookup_assign_if_ne.
  - intros H. eexists _, _.
    split; [apply query_dataset_transmitted | split; [reflexivity |]].
    rewrite !lookup_assign_if_ne by discriminate.
    destruct (0 <? offset) eqn:Hpos; [apply Z.ltb_lt in Hpos; lia |].
    apply lookup_singleton_ne. discriminate.
  - intros H. eexists _, _.
    split; [apply query_dataset_transmitted | split; [reflexivity |]].
    rewrite !lookup_assign_if_ne by discriminate.
    destruct (0 <? offset) eqn:Hpos; [| apply Z.ltb_ge in Hpos; lia].
    apply lookup_insert_eq.
Qed.

(** ** Rendering of numeric fields *)

Lemma round_half_even_nearest (num den : Z) :
  0 < den -> 2 * Z.abs (round_half_even num den * den - num) <= den.
Proof.
  intros Hden. unfold round_half_even.
  pose proof (Z.div_mod num den ltac:(lia)) as Hdm.
  pose proof (Z.mod_pos_bound num den Hden) as Hr.
  remember (num / den) as q eqn:Hq. remember (num mod den) as r eqn:Hrem.
  clear Hq Hrem. subst num.
  assert (q * den - (den * q + r) = - r) as Hdown by ring.
  assert ((q + 1) * den - (den * q + r) = den - r) as Hup by ring.
  destruct (Z.compare_spec (2 * r) den) as [Hcmp | Hcmp | Hcmp].
  - destruct (Z.even q); [rewrite Hdown | rewrite Hup]; lia.
  - rewrite Hdown. lia.
  - rewrite Hup. lia.
Qed.

(** The float nearest to the literal 100.005 lies below it. *)
Lemma literal_100_005_below :
  float_of_decimal 100005 3 = S754_finite false 7037226261487288 (-46) /\
  2 ^ 52 <= 7037226261487288 < 2 ^ 53 /\
  7037226261487288 * 1000 < 100005 * 2 ^ 46 /\
  2 * (100005 * 2 ^ 46 - 7037226261487288 * 1000) < 1000.
Proof. split; [vm_compute; reflexivity | lia]. Qed.

Lemma add_zero_keeps_text (decimals : nat) (x : value) (txt : string) :
  py_format_f decimals (py_or x (VInt 0)) = Ok txt ->
  exists total,
    py_add (py_or x (VInt 0)) (VInt 0) = Ok total /\ py_format_f decimals total = Ok txt.
Proof.
  unfold py_or. destruct x as [| b | z | f | s | l | d]; simpl truthy.
  - intros H. exists (VInt 0). split; [reflexivity | exact H].
  - destruct b; intros H.
    + exists (VInt 1). split; [reflexivity | exact H].
    + exists (VInt 0). split; [reflexivity | exact H].
  - destruct (z =? 0); simpl negb; cbv iota; intros H.
    + exists (VInt 0). split; [reflexivity | exact H].
    + exists (VInt z). split; [| exact H].
      unfold py_add, as_int. rewrite Z.add_0_r. reflexivity.
  - destruct f as [sg | sg | | sg m e]; simpl; intros H.
    + exists (VInt 0). split; [reflexivity | exact H].
    + exists (VFloat (S754_infinity sg)). split; [reflexivity | exact H].
    + exists (VFloat S754_nan). split; [reflexivity | exact H].
    + exists (VFloat (S754_finite sg m e)). split; [reflexivity | exact H].
  - destruct (negb (String.eqb s "")); intros H; [discriminate |].
    exists (VInt 0). split; [reflexivity | exact H].
  - destruct l; intros H; [| discriminate].
    exists (VInt 0). split; [reflexivity | exact H].
  - destruct d; intros H; [| discriminate].
    exists (VInt 0). split; [reflexivity | exact H].
Qed.

Lemma py_in_dict (key : string) (d : list (string * value)) :
  py_in key (VDict d) = Ok (match dict_get d key with Some _ => true | None => false end).
Proof. reflexivity. Qed.

Lemma py_get_dict (d : list (string * value)) (key : string) (fallback : value) :
  py_get (VDict d) key fallback = Ok (dict_get_or d key fallback).
Proof. reflexivity. Qed.

Lemma number_text_rendered (decimals : nat) (v : value) :
  fits_float v = true ->
  exists w,
    (if is_number v then s ← py_format_f decimals v; Ok (VStr s) else Ok v) = Ok w /\
    py_str w = number_text decimals v.
Proof.
  intros Hfits. unfold number_text.
  destruct v as [| b | z | f | s | l | d]; simpl is_number; cbv iota;
    try (eexists; split; reflexivity).
  - destruct b; eexists; split; reflexivity.
  - unfold py_format_f. unfold fits_float in Hfits.
    destruct (float_of_int z) as [f | e]; [| discriminate].
    eexists; split; reflexivity.
Qed.

Lemma get_electricity_prices_record_line (r : list (string * value)) (output : list string) :
  fits_float (dict_get_or r "SpotPriceDKK" (VStr "N/A")) = true ->
  fits_float (dict_get_or r "SpotPriceEUR" (VStr "N/A")) = true ->
  get_electricity_prices_record (VDict r) output = Ok (output ++ [price_line r]).
Proof.
  intros Hdkk Heur.
  destruct (number_text_rendered 2 _ Hdkk) as (dkk & Hd & Hdtxt).
  destruct (number_text_rendered 2 _ Heur) as (eur & He & Hetxt).
  unfold get_electricity_prices_record. rewrite !py_get_dict.
  unfold mbind at 1, result_bind at 1. unfold mbind at 1, result_bind at 1.
  unfold mbind at 1, result_bind at 1. unfold mbind at 1, result_bind at 1.
  rewrite Hd. unfold mbind at 1, result_bind at 1.
  rewrite He. unfold mbind at 1, result_bind at 1.
  unfold price_line. rewrite Hdtxt, Hetxt. reflexivity.
Qed.

Lemma get_co2_emissions_record_line (r : list (string * value)) (output : list string) :
  fits_float (dict_get_or r "CO2Emission" (VStr "N/A")) = true ->
  get_co2_emissions_record (VDict r) output = Ok (output ++ [co2_line r]).
Proof.
  intros Hco2.
  destruct (number_text_rendered 1 _ Hco2) as (co2 & Hc & Hctxt).
  unfold get_co2_emissions_record. rewrite !py_get_dict.
  unfold mbind at 1, result_bind at 1. unfold mbind at 1, result_bind at 1.
  unfold mbind at 1, result_bind at 1. unfold mbind at 1, result_bind at 1.
  rewrite Hc. unfold mbind at 1, result_bind at 1.
  unfold co2_line. rewrite Hctxt. reflexivity.
Qed.

Lemma zero_add_keeps_text (decimals : nat) (x : value) (txt : string) :
  py_format_f decimals (py_or x (VInt 0)) = Ok txt ->
  exists total,
    py_add (VInt 0) (py_or x (VInt 0)) = Ok total /\ py_format_f decimals total = Ok txt.
Proof.
  unfold py_or. destruct x as [| b | z | f | s | l | d]; simpl truthy.
  - intros H. exists (VInt 0). split; [reflexivity | exact H].
  - destruct b; intros H.
    + exists (VInt 1). split; [reflexivity | exact H].
    + exists (VInt 0). split; [reflexivity | exact H].
  - destruct (z =? 0); simpl negb; cbv iota; intros H.
    + exists (VInt 0). split; [reflexivity | exact H].
    + exists (VInt z). split; [| exact H].
      unfold py_add, as_int. rewrite Z.add_0_l. reflexivity.
  - destruct f as [sg | sg | | sg m e]; simpl; intros H.
    + exists (VInt 0). split; [reflexivity | exact H].
    + exists (VFloat (S754_infinity sg)). split; [reflexivity | exact H].
    + exists (VFloat S754_nan). split; [reflexivity | exact H].
    + exists (VFloat (S754_finite sg m e)). split; [reflexivity | exact H].
  - destruct (negb (String.eqb s "")); intros H; [discriminate |].
    exists (VInt 0). split; [reflexivity | exact H].
  - destruct l; intros H; [| discriminate].
    exists (VInt 0). split; [reflexivity | exact H].
  - destruct d; intros H; [| discriminate].
    exists (VInt 0). split; [reflexivity | exact H].
Qed.

Lemma format_shown (decimals : nat) (v : value) :
  shown v = true -> py_format_f decimals v = Ok (number_text decimals v).
Proof.
  unfold shown, number_text. intros H. apply andb_true_iff in H. destruct H as [Hn Hf].
  rewrite Hn.
  destruct v as [| b | z | f | s | l | d]; try discriminate.
  - destruct b; reflexivity.
  - unfold py_format_f. unfold fits_float in Hf.
    destruct (float_of_int z) as [f | e]; [reflexivity | discriminate].
  - reflexivity.
Qed.

Lemma py_add_shown (v w : value) :
  shown v = true -> shown w = true ->
  exists total, py_add v w = Ok total /\ is_number total = true.
Proof.
  unfold shown. intros Hv Hw.
  apply andb_true_iff in Hv. destruct Hv as [Nv Fv].
  apply andb_true_iff in Hw. destruct Hw as [Nw Fw].
  destruct v as [| b | z | f | s | l | d]; try discriminate;
    destruct w as [| b' | z' | f' | s' | l' | d']; try discriminate;
    try (eexists; split; reflexivity).
  - destruct b; eexists; split; reflexivity.
  - unfold py_add. simpl as_int. cbv iota. unfold fits_float in Fv.
    destruct (float_of_int z) as [g | e]; [| discriminate].
    eexists; split; reflexivity.
  - destruct b'; eexists; split; reflexivity.
  - unfold py_add. simpl as_int. cbv iota. unfold fits_float in Fw.
    destruct (float_of_int z') as [g | e]; [| discriminate].
    eexists; split; reflexivity.
Qed.

Lemma power_absent_or_falsy (fields : list (string * value)) (key : string) :
  absent_or_falsy fields key = true -> power fields key = VInt 0.
Proof.
  unfold absent_or_falsy, power, dict_get_or, py_or.
  destruct (dict_get fields key) as [v |]; [| reflexivity].
  intros H. apply negb_true_iff in H. rewrite H. reflexivity.
Qed.

(** C2, as the code has it: a power field that is absent or falsy counts
    as zero.  For every record whose onshore, offshore and solar values,
    read so, are numbers that convert to a float, and whose wind sum
    converts too, the record is rendered without failure: the wind line
    shows the sum of the two components and each component, the solar line
    the solar value, all with one decimal, so that an absent or falsy
    component or solar value is shown as [0.0] and the total is then shown
    as the other component alone; only an absent [GrossConsumption] is
    shown as [N/A]. *)
Theorem production_consumption_missing_fields (fields : list (string * value))
    (output : list string) :
  let onshore := power fields "OnshoreWindPower" in
  let offshore := power fields "OffshoreWindPower" in
  let solar := power fields "SolarPower" in
  shown onshore = true -> shown offshore = true -> shown solar = true ->
  (forall total, py_add onshore offshore = Ok total -> fits_float total = true) ->
  exists total,
    py_add onshore offshore = Ok total /\
    get_production_consumption_record (VDict fields) output =
      Ok (output ++
          [py_str (dict_get_or fields "HourDK"
                     (dict_get_or fields "HourUTC" (VStr "Unknown")))
             +:+ " (" +:+ py_str (dict_get_or fields "PriceArea" (VStr "Unknown")) +:+ "):";
           "  Wind: " +:+ number_text 1 total +:+ " MWh (Onshore: " +:+
             number_text 1 onshore +:+ ", Offshore: " +:+ number_text 1 offshore +:+ ")";
           "  Solar: " +:+ number_text 1 solar +:+ " MWh";
           "  Gross Consumption: " +:+
             py_str (dict_get_or fields "GrossConsumption" (VStr "N/A"));
           ""]) /\
    (forall a b, onshore = VInt a -> offshore = VInt b -> total = VInt (a + b)) /\
    (forall x y, onshore = VFloat x -> offshore = VFloat y ->
       total = VFloat (SFadd prec emax x y)) /\
    (absent_or_falsy fields "OnshoreWindPower" = true ->
       number_text 1 onshore = "0.0" /\ number_text 1 total = number_text 1 offshore) /\
    (absent_or_falsy fields "OffshoreWindPower" = true ->
       number_text 1 offshore = "0.0" /\ number_text 1 total = number_text 1 onshore) /\
    (absent_or_falsy fields "SolarPower" = true -> number_text 1 solar = "0.0") /\
    (dict_get fields "GrossConsumption" = None ->
       py_str (dict_get_or fields "GrossConsumption" (VStr "N/A")) = "N/A").
Proof.
  intros onshore offshore solar Hon Hoff Hsol Hsum.
  destruct (py_add_shown _ _ Hon Hoff) as (total & Hadd & Ntotal).
  assert (shown total = true) as Htotal
    by (unfold shown; rewrite Ntotal; apply (Hsum _ Hadd)).
  exists total. split; [exact Hadd |].
  split; [| split; [| split; [| split; [| split; [| split]]]]].
  - unfold get_production_consumption_record. rewrite !py_get_dict.
    unfold mbind, result_bind. cbv beta iota zeta.
    fold (power fields "OnshoreWindPower"). fold (power fields "OffshoreWindPower").
    fold (power fields "SolarPower"). fold onshore. fold offshore. fold solar.
    rewrite Hadd.
    rewrite (format_shown 1 total Htotal), (format_shown 1 onshore Hon),
      (format_shown 1 offshore Hoff), (format_shown 1 solar Hsol).
    rewrite ?py_get_dict. cbv beta iota. rewrite <- ?app_assoc. reflexivity.
  - intros a b Ha Hb. rewrite Ha, Hb in Hadd. injection Hadd as <-. reflexivity.
  - intros x y Hx Hy. rewrite Hx, Hy in Hadd. injection Hadd as <-. reflexivity.
  - intros Habs. pose proof (power_absent_or_falsy _ _ Habs) as Hzero.
    fold onshore in Hzero. split; [rewrite Hzero; reflexivity |].
    pose proof (format_shown 1 offshore Hoff) as Hfmt.
    destruct (zero_add_keeps_text 1 _ _ Hfmt) as (t & Ht & Hfmt').
    fold (power fields "OffshoreWindPower") in Ht. fold offshore in Ht.
    rewrite Hzero in Hadd. rewrite Hadd in Ht. injection Ht as <-.
    pose proof (format_shown 1 total Htotal) as Hfmt''.
    rewrite Hfmt' in Hfmt''. injection Hfmt'' as <-. reflexivity.
  - intros Habs. pose proof (power_absent_or_falsy _ _ Habs) as Hzero.
    fold offshore in Hzero. split; [rewrite Hzero; reflexivity |].
    pose proof (format_shown 1 onshore Hon) as Hfmt.
    destruct (add_zero_keeps_text 1 _ _ Hfmt) as (t & Ht & Hfmt').
    fold (power fields "OnshoreWindPower") in Ht. fold onshore in Ht.
    rewrite Hzero in Hadd. rewrite Hadd in Ht. injection Ht as <-.
    pose proof (format_shown 1 total Htotal) as Hfmt''.
    rewrite Hfmt' in Hfmt''. injection Hfmt'' as <-. reflexivity.
  - intros Habs. pose proof (power_absent_or_falsy _ _ Habs) as Hzero.
    fold solar in Hzero. rewrite Hzero. reflexivity.
  - intros Hnone. unfold dict_get_or. rewrite Hnone. reflexivity.
Qed.

Lemma round_half_even_tie (num den : Z) :
  0 < den ->
  2 * Z.abs (round_half_even num den * den - num) = den ->
  Z.even (round_half_even num den) = true.
Proof.
  intros Hden. unfold round_half_even.
  pose proof (Z.div_mod num den ltac:(lia)) as Hdm.
  pose proof (Z.mod_pos_bound num den Hden) as Hr.
  remember (num / den) as q eqn:Hq. remember (num mod den) as r eqn:Hrem.
  clear Hq Hrem. subst num.
  assert (q * den - (den * q + r) = - r) as Hdown by ring.
  assert ((q + 1) * den - (den * q + r) = den - r) as Hup by ring.
  destruct (Z.compare_spec (2 * r) den) as [Hcmp | Hcmp | Hcmp].
  - destruct (Z.even q) eqn:Heven; [intros _; exact Heven |].
    intros _. rewrite Z.even_add, Heven. reflexivity.
  - rewrite Hdown. lia.
  - rewrite Hup. lia.
Qed.

(** C6, as the code has it: a price is rendered through the format code
    with two places when it is a number (an integer being converted to a
    float first), and so is a CO2 emission with one place.  The format code
    shows the exact binary value of the float rounded to that many places,
    to the nearest and ties to even; the float of the literal 100.005 lies
    below it and is rendered 100.00 (13.4 as 13.40), 123.45 is rendered
    123.5, and the exact ties 0.125, 0.375 and 0.25 go to the even digit. *)
Theorem numbers_rendered_to_places (r : list (string * value)) (output : list string) :
  (fits_float (dict_get_or r "SpotPriceDKK" (VStr "N/A")) = true ->
   fits_float (dict_get_or r "SpotPriceEUR" (VStr "N/A")) = true ->
   get_electricity_prices_record (VDict r) output = Ok (output ++ [price_line r])) /\
  (fits_float (dict_get_or r "CO2Emission" (VStr "N/A")) = true ->
   get_co2_emissions_record (VDict r) output = Ok (output ++ [co2_line r])) /\
  (forall decimals f, number_text decimals (VFloat f) = format_float decimals f) /\
  (forall decimals z f, float_of_int z = Ok f ->
     number_text decimals (VInt z) = format_float decimals f) /\
  (forall decimals sign m e,
     let num := Z.pos m * 10 ^ Z.of_nat decimals * 2 ^ Z.max e 0 in
     let den := 2 ^ Z.max (- e) 0 in
     exists q,
       format_float decimals (S754_finite sign m e) = fixed_digits decimals sign q /\
       2 * Z.abs (q * den - num) <= den /\
       (2 * Z.abs (q * den - num) = den -> Z.even q = true)) /\
  (number_text 2 (VFloat (float_of_decimal 100005 3)) = "100.00" /\
   number_text 2 (VFloat (float_of_decimal 134 1)) = "13.40" /\
   number_text 1 (VFloat (float_of_decimal 12345 2)) = "123.5") /\
  (number_text 2 (VFloat (float_of_decimal 125 3)) = "0.12" /\
   number_text 2 (VFloat (float_of_decimal 375 3)) = "0.38" /\
   number_text 1 (VFloat (float_of_decimal 25 2)) = "0.2").
Proof.
  split; [| split; [| split; [| split; [| split; [| split]]]]].
  - apply get_electricity_prices_record_line.
  - apply get_co2_emissions_record_line.
  - reflexivity.
  - intros decimals z f Hf. unfold number_text, py_format_f. simpl is_number.
    rewrite Hf. reflexivity.
  - intros decimals sign m e num den.
    assert (0 < den) as Hden by (subst den; apply Z.pow_pos_nonneg; lia).
    exists (round_half_even num den). split; [reflexivity |].
    split; [apply round_half_even_nearest | apply round_half_even_tie]; exact Hden.
  - repeat split; vm_compute; reflexivity.
  - repeat split; vm_compute; reflexivity.
Qed.

(** ** Further properties of the tools *)

Lemma for_each_lines {A : Type} (xs : list A) (body : A -> list string -> result (list string))
    (line : A -> string) (output : list string) :
  (forall x out, In x xs -> body x out = Ok (out ++ [line x])) ->
  for_each xs body output = Ok (output ++ map line xs).
Proof.
  revert output. induction xs as [| x xs IH]; intros output Hbody.
  - simpl. rewrite app_nil_r. reflexivity.
  - simpl. rewrite Hbody by (left; reflexivity).
    rewrite IH by (intros y out Hy; apply Hbody; right; exact Hy).
    rewrite <- app_assoc. reflexivity.
Qed.



(** X4: the tools provide for a JSON object and for null only: when the
    decoded body is anything else (an array, a string, a number, a boolean),
    each of the six tools raises. *)
Theorem tools_raise_on_other_bodies (world : http) (body : value)
    (dataset_name price_area : string) (limit offset : Z)
    (area start end_ filter columns sort : option string) :
  object_or_null body = false ->
  executor_returns world body ->
  raises (returned list_datasets world) /\
  raises (returned (get_dataset_metadata dataset_name) world) /\
  raises (returned (query_dataset dataset_name limit offset start end_ filter columns sort)
            world) /\
  raises (returned (get_electricity_prices price_area limit start end_) world) /\
  raises (returned (get_co2_emissions limit start end_) world) /\
  raises (returned (get_production_consumption area limit start end_) world).
Proof.
  intros Hshape Hbody.
  unfold list_datasets, get_dataset_metadata, query_dataset, get_electricity_prices,
    get_co2_emissions, get_production_consumption.
  cbv zeta. rewrite !returned_bind_lift, !Hbody.
  destruct body as [| b | z | f | s | l | d]; try discriminate;
    try (repeat split; eexists; reflexivity).
  - unfold mbind, result_bind, is_none, py_in.
    destruct (contains_str "error" s); repeat split; eexists; reflexivity.
  - unfold mbind, result_bind, is_none, py_in.
    destruct (existsb (is_str "error") l); repeat split; eexists; reflexivity.
Qed.

Lemma for_each_dicts (ds : list (list (string * value)))
    (body : value -> list string -> result (list string))
    (line : list (string * value) -> string) (output : list string) :
  (forall d out, In d ds -> body (VDict d) out = Ok (out ++ [line d])) ->
  for_each (map VDict ds) body output = Ok (output ++ map line ds).
Proof.
  intros Hbody.
  rewrite (for_each_lines (map VDict ds) body
             (fun v => match v with VDict d => line d | _ => "" end)).
  - rewrite map_map. reflexivity.
  - intros x out Hx. apply in_map_iff in Hx. destruct Hx as (d & <- & Hd).
    apply Hbody, Hd.
Qed.

Lemma truthy_dicts (ds : list (list (string * value))) :
  ds <> [] -> truthy (VList (map VDict ds)) = true.
Proof. destruct ds; [congruence | reflexivity]. Qed.

(** X6: on a result with at least one dataset, [list_datasets] gives the count
    of the datasets in its heading and then one line per dataset, in order,
    a missing name shown as [Unknown] and a missing description as
    [No description]. *)
Theorem list_datasets_lists_every_dataset (world : http) (d : list (string * value))
    (datasets : list (list (string * value))) :
  returned (make_api_request "meta/dataset" None) world = Ok (VDict d) ->
  dict_get d "error" = None ->
  dict_get d "result" = Some (VList (map VDict datasets)) ->
  datasets <> [] ->
  returned list_datasets world =
    Ok ("Available datasets (" +:+ pretty (Z.of_nat (List.length datasets)) +:+ " total):" +:+
        NL +:+ NL +:+ String.concat NL (map dataset_line datasets)).
Proof.
  intros Hdata Herr Hres Hne.
  unfold list_datasets. rewrite returned_bind_lift, Hdata.
  unfold mbind at 1, result_bind at 1. simpl is_none. cbv iota.
  unfold py_in, py_get, dict_get_or. rewrite Herr, Hres.
  unfold mbind at 1, result_bind at 1. cbv iota.
  unfold mbind at 1, result_bind at 1.
  rewrite truthy_dicts by exact Hne. simpl negb. cbv iota.
  unfold py_iter. unfold mbind at 1, result_bind at 1.
  rewrite (for_each_dicts datasets _ dataset_line []) by (intros; reflexivity).
  unfold mbind, result_bind, py_len. rewrite length_map. reflexivity.
Qed.

(** X5: with no [error] key and nothing to show (the list is absent, empty or
    otherwise falsy), each tool answers with its fixed message instead of a
    report, and [query_dataset] with a header over the formatter's message. *)
Theorem tools_report_nothing_found (world : http) (d : list (string * value))
    (dataset_name price_area : string) (limit : Z) (area start end_ : option string) :
  executor_returns world (VDict d) ->
  dict_get d "error" = None ->
  (absent_or_falsy d "result" = true ->
   returned list_datasets world = Ok "No datasets found." /\
   returned (get_dataset_metadata dataset_name) world =
     Ok ("No metadata found for dataset '" +:+ dataset_name +:+ "'.")) /\
  (absent_or_falsy d "records" = true ->
   returned (get_electricity_prices price_area limit start end_) world =
     Ok ("No electricity prices found for " +:+ price_area +:+ ".") /\
   returned (get_co2_emissions limit start end_) world = Ok "No CO2 emission data found." /\
   returned (get_production_consumption area limit start end_) world =
     Ok "No production/consumption data found.").
Proof.
  intros Hdata Herr.
  unfold list_datasets, get_dataset_metadata, get_electricity_prices,
    get_co2_emissions, get_production_consumption.
  cbv zeta. rewrite !returned_bind_lift, !Hdata.
  unfold mbind, result_bind, is_none, py_in, py_get, dict_get_or, absent_or_falsy.
  rewrite Herr.
  split.
  - destruct (dict_get d "result") as [v |]; intros H.
    + apply negb_true_iff in H. rewrite H. split; reflexivity.
    + split; reflexivity.
  - destruct (dict_get d "records") as [v |]; intros H.
    + apply negb_true_iff in H. rewrite H. repeat split.
    + repeat split.
Qed.

(** X7: on metadata that is a non-empty object, [get_dataset_metadata] gives
    the dataset's name, then the description and the record count when the
    object has them, then, when there are columns, a heading and one line
    per column, in order, with [Unknown] and [No description] for what a
    column lacks. *)
Theorem get_dataset_metadata_lists_columns (world : http) (dataset_name : string)
    (d meta : list (string * value)) (columns : list (list (string * value))) :
  returned (make_api_request ("meta/" +:+ dataset_name) None) world = Ok (VDict d) ->
  dict_get d "error" = None ->
  dict_get d "result" = Some (VDict meta) ->
  meta <> [] ->
  dict_get meta "columns" = Some (VList (map VDict columns)) \/
    (dict_get meta "columns" = None /\ columns = []) ->
  returned (get_dataset_metadata dataset_name) world =
    Ok (String.concat NL (("Dataset: " +:+ dataset_name) :: metadata_lines meta columns)).
Proof.
  intros Hdata Herr Hres Hne Hcols.
  unfold get_dataset_metadata. rewrite returned_bind_lift, Hdata.
  unfold mbind at 1, result_bind at 1. simpl is_none. cbv iota.
  rewrite (py_in_dict "error" d), Herr.
  unfold mbind at 1, result_bind at 1. cbv iota.
  rewrite (py_get_dict d "result"). unfold dict_get_or at 1. rewrite Hres.
  unfold mbind at 1, result_bind at 1.
  assert (truthy (VDict meta) = true) as -> by (destruct meta; [congruence | reflexivity]).
  simpl negb. cbv iota zeta.
  unfold metadata_lines, py_in, py_getitem, py_get, dict_get_or, mbind, result_bind.
  destruct (dict_get meta "description") as [desc |];
    destruct (dict_get meta "recordCount") as [count |];
    destruct Hcols as [-> | [-> ->]];
    try reflexivity;
    (destruct columns as [| col columns]; [reflexivity |]);
    rewrite truthy_dicts by discriminate; unfold py_iter;
    rewrite (for_each_dicts (col :: columns) _ column_line) by (intros; reflexivity);
    rewrite <- app_assoc; reflexivity.
Qed.

(** X8: on a response with records and a cap that is not negative,
    [query_dataset] reports the dataset, the total as the response gives it
    (0 when absent), the number of records in the response, an empty line
    and the blocks of the first [limit] records; the cap is the limit as
    given, not the transmitted one, and the summary line appears exactly
    when the response holds more records than the limit. *)
Theorem query_dataset_report (world : http) (dataset_name : string) (limit offset : Z)
    (start end_ filter columns sort : option string) (d : list (string * value))
    (records : list (list (string * value))) :
  executor_returns world (VDict d) ->
  dict_get d "error" = None ->
  dict_get d "records" = Some (VList (map VDict records)) ->
  records <> [] ->
  0 <= limit ->
  returned (query_dataset dataset_name limit offset start end_ filter columns sort) world =
    Ok (String.concat NL
          ["Dataset: " +:+ dataset_name;
           "Total matching records: " +:+ py_str (dict_get_or d "total" (VInt 0));
           "Records returned: " +:+ pretty (Z.of_nat (List.length records));
           "";
           String.concat NL (record_blocks (firstn (Z.to_nat limit) records)) +:+
           (if limit <? Z.of_nat (List.length records)
            then omission_summary (Z.of_nat (List.length records) - limit)
            else "")]).
Proof.
  intros Hdata Herr Hrec Hne Hcap.
  unfold query_dataset. cbv zeta. rewrite returned_bind_lift, Hdata.
  unfold mbind at 1, result_bind at 1. simpl is_none. cbv iota.
  rewrite (py_in_dict "error" d), Herr.
  unfold mbind at 1, result_bind at 1. cbv iota.
  rewrite !py_get_dict.
  unfold mbind at 1, result_bind at 1.
  unfold mbind at 1, result_bind at 1.
  replace (dict_get_or d "records" (VList [])) with (VList (map VDict records))
    by (unfold dict_get_or; rewrite Hrec; reflexivity).
  cbv zeta. rewrite format_records_run by assumption.
  unfold py_len, mbind, result_bind. rewrite length_map. reflexivity.
Qed.

Lemma slice_drops (A : Type) (xs : list A) (stop : Z) :
  stop < 0 ->
  firstn (slice_stop (List.length xs) stop) xs
  = firstn (Z.to_nat (Z.of_nat (List.length xs) + stop)) xs.
Proof.
  intros H. unfold slice_stop.
  destruct (stop <? 0) eqn:Hneg; [| apply Z.ltb_ge in Hneg; lia].
  f_equal. lia.
Qed.

(** X9: with a negative cap the formatter follows the slice: it renders all
    but the last [-C] records (none when there are not that many), and it
    always appends the summary, whose count is L - C and so exceeds the
    number of records there are. *)
Theorem format_records_negative (records : list (list (string * value))) (max_records : Z) :
  max_records < 0 ->
  records <> [] ->
  let L := Z.of_nat (List.length records) in
  format_records (VList (map VDict records)) max_records =
    Ok (String.concat NL (record_blocks (firstn (Z.to_nat (L + max_records)) records)) +:+
        omission_summary (L - max_records)) /\
  L < L - max_records.
Proof.
  intros Hcap Hne L. split; [| lia]. unfold format_records.
  rewrite truthy_dicts by exact Hne.
  simpl negb. cbv iota. unfold py_slice_to.
  unfold mbind at 1, result_bind at 1.
  rewrite slice_drops, firstn_map by exact Hcap.
  unfold enumerate. change 0 with (Z.of_nat 0).
  rewrite (format_blocks_loop _ 0 []).
  unfold mbind at 1, result_bind at 1. simpl app. cbv zeta.
  unfold py_len, mbind, result_bind. rewrite !length_map.
  fold L. fold (record_blocks (firstn (Z.to_nat (L + max_records)) records)).
  assert ((max_records <? L) = true) as -> by (apply Z.ltb_lt; lia).
  reflexivity.
Qed.

(** X10: records with missing or odd price fields never make the price report
    fail: for records whose prices are not integers beyond the range of a
    float, [get_electricity_prices] returns its two heading lines and then
    one line per record, in order; on each line the hour is [HourDK], else
    [HourUTC], else [Unknown], a numeric price has two decimals, an absent
    one is [N/A], and any other value is shown as [str] gives it. *)
Theorem get_electricity_prices_report (world : http) (price_area : string) (limit : Z)
    (start end_ : option string) (d : list (string * value))
    (records : list (list (string * value))) :
  executor_returns world (VDict d) ->
  dict_get d "error" = None ->
  dict_get d "records" = Some (VList (map VDict records)) ->
  records <> [] ->
  (forall r, In r records ->
     fits_float (dict_get_or r "SpotPriceDKK" (VStr "N/A")) = true /\
     fits_float (dict_get_or r "SpotPriceEUR" (VStr "N/A")) = true) ->
  returned (get_electricity_prices price_area limit start end_) world =
    Ok (String.concat NL
          (("Electricity Spot Prices for " +:+ price_area) ::
           ("(Prices in DKK/MWh and EUR/MWh)" +:+ NL) ::
           map price_line records)).
Proof.
  intros Hdata Herr Hrec Hne Hfits.
  unfold get_electricity_prices. cbv zeta. rewrite returned_bind_lift, Hdata.
  unfold mbind at 1, result_bind at 1. simpl is_none. cbv iota.
  rewrite (py_in_dict "error" d), Herr.
  unfold mbind at 1, result_bind at 1. cbv iota.
  rewrite py_get_dict. unfold mbind at 1, result_bind at 1.
  replace (dict_get_or d "records" (VList [])) with (VList (map VDict records))
    by (unfold dict_get_or; rewrite Hrec; reflexivity).
  rewrite truthy_dicts by exact Hne.
  simpl negb. cbv iota. unfold py_iter. unfold mbind at 1, result_bind at 1.
  rewrite (for_each_dicts records _ price_line).
  - reflexivity.
  - intros r out Hr. destruct (Hfits r Hr) as [Hdkk Heur].
    apply get_electricity_prices_record_line; assumption.
Qed.

(** X11: the same for the emission report: one line per record after the
    heading, with the time ([Minutes5DK], else [Minutes5UTC], else
    [Unknown]), the area (else [Unknown]) and the emission with one decimal
    when it is a number, [N/A] when it is absent. *)
Theorem get_co2_emissions_report (world : http) (limit : Z) (start end_ : option string)
    (d : list (string * value)) (records : list (list (string * value))) :
  executor_returns world (VDict d) ->
  dict_get d "error" = None ->
  dict_get d "records" = Some (VList (map VDict records)) ->
  records <> [] ->
  (forall r, In r records ->
     fits_float (dict_get_or r "CO2Emission" (VStr "N/A")) = true) ->
  returned (get_co2_emissions limit start end_) world =
    Ok (String.concat NL
          (("CO2 Emission Intensity (g CO2/kWh)" +:+ NL) :: map co2_line records)).
Proof.
  intros Hdata Herr Hrec Hne Hfits.
  unfold get_co2_emissions. cbv zeta. rewrite returned_bind_lift, Hdata.
  unfold mbind at 1, result_bind at 1. simpl is_none. cbv iota.
  rewrite (py_in_dict "error" d), Herr.
  unfold mbind at 1, result_bind at 1. cbv iota.
  rewrite py_get_dict. unfold mbind at 1, result_bind at 1.
  replace (dict_get_or d "records" (VList [])) with (VList (map VDict records))
    by (unfold dict_get_or; rewrite Hrec; reflexivity).
  rewrite truthy_dicts by exact Hne.
  simpl negb. cbv iota. unfold py_iter. unfold mbind at 1, result_bind at 1.
  rewrite (for_each_dicts records _ co2_line).
  - reflexivity.
  - intros r out Hr. apply get_co2_emissions_record_line, Hfits, Hr.
Qed.


(** ** Further properties of the query parameters *)

Lemma lookup_assign_if_eq (key : string) (a : value) (p : gmap string value) :
  truthy a = true -> assign_if key a p !! key = Some a.
Proof. intros H. unfold assign_if. rewrite H. apply lookup_insert_eq. Qed.

Lemma dom_assign_if (key : string) (a : value) (p : gmap string value) :
  dom (assign_if key a p) ⊆ {[ key ]} ∪ dom p.
Proof.
  unfold assign_if. destruct (truthy a); [rewrite dom_insert_L |]; set_solver.
Qed.

Lemma truthy_given (s : string) : s <> "" -> truthy (arg (Some s)) = true.
Proof. intros H. simpl. apply String.eqb_neq in H. rewrite H. reflexivity. Qed.

Lemma requests_make_api_request (endpoint : string) (p : option (gmap string value))
    (env : session) :
  requests (make_api_request endpoint p) env =
  match client_enter env with
  | Ok _ => [request_for endpoint p]
  | Raise _ => []
  end.
Proof.
  unfold requests. rewrite make_api_request_run.
  destruct (client_enter env); reflexivity.
Qed.

Lemma outcome_without_client (endpoint : string) (p : option (gmap string value))
    (env : session) (e : exn) :
  client_enter env = Raise e -> outcome (make_api_request endpoint p) env = Raise e.
Proof. intros H. unfold outcome. rewrite make_api_request_run, H. reflexivity. Qed.

(** X1: when the client is built and entered, each tool hands exactly one
    request to it, whatever the arguments and whatever the upstream does, to
    its own endpoint under the base URL and with the fixed timeout; the two
    metadata tools send no query parameters, and the parameters of the other
    four are named only from limit, offset, start, end, filter, columns and
    sort.  When building or entering the client fails, no request is sent
    and the tool raises that failure. *)
Theorem tools_send_one_request (env : session) (dataset_name price_area : string)
    (limit offset : Z) (area start end_ filter columns sort : option string) :
  (client_enter env = Ok tt ->
   requests list_datasets env = [request_for "meta/dataset" None] /\
   requests (get_dataset_metadata dataset_name) env
     = [request_for ("meta/" +:+ dataset_name) None] /\
   (exists p,
      requests (query_dataset dataset_name limit offset start end_ filter columns sort) env
        = [request_for ("dataset/" +:+ dataset_name) (Some p)] /\
      dom p ⊆ parameter_names) /\
   (exists p,
      requests (get_electricity_prices price_area limit start end_) env
        = [request_for "dataset/Elspotprices" (Some p)] /\
      dom p ⊆ parameter_names) /\
   (exists p,
      requests (get_co2_emissions limit start end_) env
        = [request_for "dataset/CO2Emis" (Some p)] /\
      dom p ⊆ parameter_names) /\
   (exists p,
      requests (get_production_consumption area limit start end_) env
        = [request_for "dataset/ProductionConsumptionSettlement" (Some p)] /\
      dom p ⊆ parameter_names)) /\
  (forall e, client_enter env = Raise e ->
   (requests list_datasets env = [] /\ outcome list_datasets env = Raise e) /\
   (requests (get_dataset_metadata dataset_name) env = [] /\
    outcome (get_dataset_metadata dataset_name) env = Raise e) /\
   (requests (query_dataset dataset_name limit offset start end_ filter columns sort) env = [] /\
    outcome (query_dataset dataset_name limit offset start end_ filter columns sort) env
      = Raise e) /\
   (requests (get_electricity_prices price_area limit start end_) env = [] /\
    outcome (get_electricity_prices price_area limit start end_) env = Raise e) /\
   (requests (get_co2_emissions limit start end_) env = [] /\
    outcome (get_co2_emissions limit start end_) env = Raise e) /\
   (requests (get_production_consumption area limit start end_) env = [] /\
    outcome (get_production_consumption area limit start end_) env = Raise e)).
Proof.
  split.
  - intros Henter.
    unfold list_datasets, get_dataset_metadata, query_dataset, get_electricity_prices,
      get_co2_emissions, get_production_consumption.
    cbv zeta. rewrite !requests_bind_lift, !requests_make_api_request, Henter.
    split; [reflexivity |]. split; [reflexivity |].
    split; [| split; [| split]]; (eexists; split; [reflexivity |]).
    + repeat (etrans; [apply dom_assign_if |]; apply union_least; [set_solver |]).
      destruct (0 <? offset); rewrite ?dom_insert_L, dom_singleton_L; set_solver.
    + repeat (etrans; [apply dom_assign_if |]; apply union_least; [set_solver |]).
      rewrite !dom_insert_L, dom_singleton_L. set_solver.
    + repeat (etrans; [apply dom_assign_if |]; apply union_least; [set_solver |]).
      rewrite !dom_insert_L, dom_singleton_L. set_solver.
    + repeat (etrans; [apply dom_assign_if |]; apply union_least; [set_solver |]).
      destruct (truthy (arg area)); rewrite !dom_insert_L, dom_singleton_L; set_solver.
  - intros e Henter.
    unfold list_datasets, get_dataset_metadata, query_dataset, get_electricity_prices,
      get_co2_emissions, get_production_consumption.
    cbv zeta.
    rewrite !requests_bind_lift, !requests_make_api_request, !outcome_bind_lift, Henter.
    rewrite !(fun endpoint p => outcome_without_client endpoint p env e Henter).
    repeat split.
Qed.

(** X2: a non-empty text given for an optional argument is transmitted as it
    is, under the argument's name, by every tool that takes it; a non-empty
    price area given to [get_production_consumption] is transmitted as the
    filter on that area. *)
Theorem given_arguments_transmitted (world : http) (s dataset_name price_area : string)
    (limit offset : Z) (area start end_ filter columns sort : option string) :
  s <> "" ->
  (sends (transmitted (query_dataset dataset_name limit offset (Some s) end_ filter columns sort)
            world) "start" (Some (VStr s)) /\
   sends (transmitted (query_dataset dataset_name limit offset start (Some s) filter columns sort)
            world) "end" (Some (VStr s)) /\
   sends (transmitted (query_dataset dataset_name limit offset start end_ (Some s) columns sort)
            world) "filter" (Some (VStr s)) /\
   sends (transmitted (query_dataset dataset_name limit offset start end_ filter (Some s) sort)
            world) "columns" (Some (VStr s)) /\
   sends (transmitted (query_dataset dataset_name limit offset start end_ filter columns (Some s))
            world) "sort" (Some (VStr s))) /\
  (sends (transmitted (get_electricity_prices price_area limit (Some s) end_) world)
     "start" (Some (VStr s)) /\
   sends (transmitted (get_electricity_prices price_area limit start (Some s)) world)
     "end" (Some (VStr s))) /\
  (sends (transmitted (get_co2_emissions limit (Some s) end_) world) "start" (Some (VStr s)) /\
   sends (transmitted (get_co2_emissions limit start (Some s)) world) "end" (Some (VStr s))) /\
  (sends (transmitted (get_production_consumption area limit (Some s) end_) world)
     "start" (Some (VStr s)) /\
   sends (transmitted (get_production_consumption area limit start (Some s)) world)
     "end" (Some (VStr s)) /\
   sends (transmitted (get_production_consumption (Some s) limit start end_) world)
     "filter" (Some (price_area_filter s))).
Proof.
  intros Hs. pose proof (truthy_given s Hs) as Ht.
  repeat split;
    (eexists _, _;
     split; [first [ apply query_dataset_transmitted
                   | apply get_electricity_prices_transmitted
                   | apply get_co2_emissions_transmitted
                   | apply get_production_consumption_transmitted ] |];
     split; [reflexivity |];
     rewrite ?lookup_assign_if_ne by discriminate;
     first [ apply lookup_assign_if_eq; exact Ht
           | rewrite Ht; apply lookup_insert_eq ]).
Qed.

(** ** The entry point *)

Lemma py_index_next (pre : list string) (a b : string) (rest : list string) :
  py_index (pre ++ a :: b :: rest) (Z.of_nat (List.length pre) + 1) = Ok b.
Proof.
  unfold py_index. rewrite length_app. simpl List.length.
  destruct (Z.of_nat (List.length pre) + 1 <? 0) eqn:Hneg; [apply Z.ltb_lt in Hneg; lia |].
  assert (((0 <=? Z.of_nat (List.length pre) + 1) &&
           (Z.of_nat (List.length pre) + 1 <?
            Z.of_nat (List.length pre + S (S (List.length rest)))))%Z = true) as ->.
  { apply andb_true_iff. split; [apply Z.leb_le | apply Z.ltb_lt]; lia. }
  replace (Z.to_nat (Z.of_nat (List.length pre) + 1)) with (List.length pre + 1)%nat by lia.
  rewrite nth_error_app2 by lia.
  replace (List.length pre + 1 - List.length pre)%nat with 1%nat by lia.
  reflexivity.
Qed.

Lemma default_last_cons {A : Type} (fallback x : A) (xs : list A) :
  default fallback (last (x :: xs)) = default x (last xs).
Proof. rewrite last_cons. destruct (last xs); reflexivity. Qed.

Lemma main_argument_step (pre : list string) (a : string) (rest : list string)
    (host : string) (port : Z) :
  main_argument (pre ++ a :: rest) (Z.of_nat (List.length pre), a) (host, port) =
  match rest with
  | [] => Ok (host, port)
  | b :: _ =>
      if String.eqb a "--host" then Ok (b, port)
      else if String.eqb a "--port" then n ← py_int b; Ok (host, n)
      else Ok (host, port)
  end.
Proof.
  unfold main_argument.
  destruct rest as [| b rest]; rewrite length_app; simpl List.length.
  - assert ((Z.of_nat (List.length pre) + 1 <? Z.of_nat (List.length pre + 1)) = false)
      as -> by (apply Z.ltb_ge; lia).
    rewrite !andb_false_r. reflexivity.
  - assert ((Z.of_nat (List.length pre) + 1 <?
             Z.of_nat (List.length pre + S (S (List.length rest)))) = true)
      as -> by (apply Z.ltb_lt; lia).
    rewrite !andb_true_r, py_index_next. reflexivity.
Qed.

(** The loop of [main], read from the command line: the host is the
    argument after the last [--host] that has one, the port the last of the
    arguments after [--port], each of which is converted in turn. *)
Lemma main_loop (pre rest : list string) (host : string) (port : Z) :
  for_each (enumerate_from (Z.of_nat (List.length pre)) rest)
    (main_argument (pre ++ rest)) (host, port)
  = ports ← parse_all (following "--port" rest);
    Ok (default host (last (following "--host" rest)), default port (last ports)).
Proof.
  revert pre host port. induction rest as [| a rest IH]; intros pre host port.
  - reflexivity.
  - cbn [enumerate_from for_each].
    specialize (IH (pre ++ [a])).
    rewrite <- app_assoc, length_app in IH. cbn [app List.length] in IH.
    replace (Z.of_nat (List.length pre + 1)) with (Z.of_nat (List.length pre) + 1) in IH
      by lia.
    rewrite main_argument_step.
    destruct rest as [| b rest].
    + simpl. destruct (String.eqb a "--port"), (String.eqb a "--host"); reflexivity.
    + cbn [following].
      destruct (String.eqb a "--host") eqn:Hhost.
      * apply String.eqb_eq in Hhost. subst a. rewrite IH.
        change (String.eqb "--host" "--port") with false. cbv iota.
        rewrite app_nil_l. cbn [app]. unfold mbind, result_bind.
        destruct (parse_all _) as [ports | e]; [| reflexivity].
        rewrite default_last_cons. reflexivity.
      * destruct (String.eqb a "--port") eqn:Hport.
        -- cbn [app parse_all].
           destruct (py_int b) as [n | e]; [| reflexivity].
           unfold mbind at 1, result_bind at 1. rewrite IH.
           unfold mbind, result_bind.
           destruct (parse_all _) as [ports | e]; [| reflexivity].
           rewrite default_last_cons. reflexivity.
        -- rewrite IH. reflexivity.
Qed.

Lemma main_loop_run (argv : list string) :
  for_each (enumerate argv) (main_argument argv) ("0.0.0.0", 9000)
  = ports ← parse_all (following "--port" argv);
    Ok (default "0.0.0.0" (last (following "--host" argv)), default 9000 (last ports)).
Proof. apply (main_loop [] argv). Qed.

(** X13: in network mode [main] serves on the host after the last [--host]
    that is followed by an argument (0.0.0.0 without one) and on the last
    port after [--port] (9000 without one), over streamable HTTP when
    [--http] is present and over SSE otherwise; the environment variables,
    the settings and the printed line all carry that host and that port. *)
Theorem main_serves_last_host_and_port (argv : list string) (proc : process)
    (ports : list Z) :
  in_argv "--http" argv || in_argv "--sse" argv = true ->
  parse_all (following "--port" argv) = Ok ports ->
  let host := default "0.0.0.0" (last (following "--host" argv)) in
  let port := default 9000 (last ports) in
  let transport := if in_argv "--http" argv then "streamable-http" else "sse" in
  main argv proc =
    (Ok tt,
     {| environ := <["UVICORN_PORT" := pretty port]>
                     (<["UVICORN_HOST" := host]> (environ proc));
        stdout := stdout proc ++
          ["Starting MCP server with " +:+ transport +:+ " transport on http://" +:+
           host +:+ ":" +:+ pretty port];
        settings_host := host;
        settings_port := port;
        served := served proc ++ [transport] |}).
Proof.
  intros Hmode Hports host port transport.
  unfold main. rewrite Hmode, main_loop_run, Hports. reflexivity.
Qed.

(** X14: a port that [int] rejects stops [main] in network mode before it has
    set, printed or served anything, even when a later [--port] is valid;
    without [--http] and [--sse] the same command line is not read at all,
    and [main] serves over stdio and touches nothing else. *)
Theorem main_bad_port_only_matters_in_network_mode (argv : list string) (proc : process)
    (e : exn) :
  parse_all (following "--port" argv) = Raise e ->
  (in_argv "--http" argv || in_argv "--sse" argv = true -> main argv proc = (Raise e, proc)) /\
  (in_argv "--http" argv || in_argv "--sse" argv = false ->
   main argv proc =
     (Ok tt,
      {| environ := environ proc; stdout := stdout proc;
         settings_host := settings_host proc; settings_port := settings_port proc;
         served := served proc ++ ["stdio"] |})).
Proof.
  intros Hports. split; intros Hmode; unfold main; rewrite Hmode.
  - rewrite main_loop_run, Hports. reflexivity.
  - reflexivity.
Qed.

End Server.

(** ** Concrete runs *)

(** C1 refuted as stated: a limit of zero is transmitted as zero, below
    the range 1..100. *)
Lemma limit_zero_transmitted :
  forallb limit_in_range
    (transmitted (query_dataset no_repr "Elspotprices" 0 0 None None None None None) offline)
  = false.
Proof. vm_compute. reflexivity. Qed.

Lemma limit_capped_at_100_witness : 1 <= Z.min 250 100 <= 100.
Proof.
  apply (limit_capped_at_100 no_repr offline "Elspotprices" "DK1" 250 0
           None None None None None None).
  lia.
Defined.

(** C2 refuted as stated: with [SolarPower] absent the solar line shows
    [0.0], not the placeholder. *)
Lemma absent_solar_rendered_as_zero :
  get_production_consumption_record no_repr
    (VDict [("HourDK", VStr "2024-01-01T00:00:00"); ("PriceArea", VStr "DK1");
            ("OnshoreWindPower", VFloat (float_of_decimal 12345 2))]) []
  = Ok ["2024-01-01T00:00:00 (DK1):";
        "  Wind: 123.5 MWh (Onshore: 123.5, Offshore: 0.0)";
        "  Solar: 0.0 MWh";
        "  Gross Consumption: N/A";
        ""] /\
  contains_str "N/A" "  Solar: 0.0 MWh" = false.
Proof. split; vm_compute; reflexivity. Qed.

Lemma production_consumption_missing_fields_witness :
  get_production_consumption_record no_repr
    (VDict [("HourDK", VStr "2024-01-01T00:00:00"); ("PriceArea", VStr "DK1");
            ("OnshoreWindPower", VInt 2);
            ("OffshoreWindPower", VFloat (float_of_decimal 55 1));
            ("GrossConsumption", VInt 7)]) []
  = Ok ["2024-01-01T00:00:00 (DK1):";
        "  Wind: 7.5 MWh (Onshore: 2.0, Offshore: 5.5)";
        "  Solar: 0.0 MWh";
        "  Gross Consumption: 7";
        ""].
Proof.
  destruct (production_consumption_missing_fields no_repr
              [("HourDK", VStr "2024-01-01T00:00:00"); ("PriceArea", VStr "DK1");
               ("OnshoreWindPower", VInt 2);
               ("OffshoreWindPower", VFloat (float_of_decimal 55 1));
               ("GrossConsumption", VInt 7)] [])
    as (total & Hadd & Hrun & _).
  - vm_compute. reflexivity.
  - vm_compute. reflexivity.
  - vm_compute. reflexivity.
  - intros total Hadd. vm_compute in Hadd. injection Hadd as <-. vm_compute. reflexivity.
  - vm_compute in Hadd. injection Hadd as <-. rewrite Hrun. vm_compute. reflexivity.
Defined.

(** C3 refuted as stated: with three records and a cap of -1 the slice
    keeps two records, so two blocks are rendered, not min(3, -1), and the
    summary states four omitted records; with no record and a cap of -1 the
    length exceeds the cap and yet no summary line is produced. *)
Lemma format_records_negative_cap :
  let records := [[("a", VInt 1)]; [("a", VInt 2)]; [("a", VInt 3)]] in
  format_records no_repr (VList (map VDict records)) (-1)
  = Ok (String.concat NL (record_blocks no_repr (firstn 2 records)) +:+ omission_summary 4) /\
  Z.of_nat (List.length (record_blocks no_repr (firstn 2 records))) <> Z.min 3 (-1) /\
  format_records no_repr (VList []) (-1) = Ok "No records found." /\
  contains_str "more records" "No records found." = false.
Proof.
  repeat split; try (vm_compute; reflexivity).
  vm_compute. discriminate.
Qed.

Lemma format_records_blocks_witness :
  exists out,
    format_records no_repr
      (VList (map VDict [[("a", VInt 1)]; [("a", VInt 2)]; [("a", VInt 3)]])) 2 = Ok out /\
    ends_with (omission_summary 1) out.
Proof.
  destruct (format_records_blocks no_repr
              [[("a", VInt 1)]; [("a", VInt 2)]; [("a", VInt 3)]] 2 ltac:(lia))
    as (out & Hrun & _ & _ & _ & _ & Hsummary & _).
  exists out. split; [exact Hrun |]. apply Hsummary. simpl. lia.
Defined.

Lemma tools_report_error_witness :
  begins_with "Error: boom" (returned (list_datasets no_repr) (mock_http (error_dict "boom"))) /\
  begins_with "Error: boom"
    (returned (get_co2_emissions no_repr 24 None None) (mock_http (error_dict "boom"))).
Proof.
  pose proof (tools_report_error no_repr (mock_http (error_dict "boom")) "Elspotprices" "DK1"
                24 0 None None None None None None
                (mock_http_returns (error_dict "boom")))
    as (Hlist & _ & _ & _ & Hco2 & _).
  split; [exact Hlist | exact Hco2].
Defined.

(** C6 refuted as stated: the mocked response of the specification renders
    100.00, not 100.01, on both lines. *)
Lemma price_100_005_rendered :
  let record := VDict [("HourDK", VStr "2024-01-01T00:00:00");
                       ("SpotPriceDKK", VFloat (float_of_decimal 100005 3));
                       ("SpotPriceEUR", VFloat (float_of_decimal 134 1))] in
  exists out,
    returned (get_electricity_prices no_repr "DK1" 2 None None)
      (mock_http (VDict [("records", VList [record; record])])) = Ok out /\
    out = String.concat NL
            ["Electricity Spot Prices for DK1";
             "(Prices in DKK/MWh and EUR/MWh)" +:+ NL;
             "2024-01-01T00:00:00: 100.00 DKK/MWh (13.40 EUR/MWh)";
             "2024-01-01T00:00:00: 100.00 DKK/MWh (13.40 EUR/MWh)"] /\
    contains_str "100.01 DKK/MWh (13.40 EUR/MWh)" out = false.
Proof. eexists. repeat split; vm_compute; reflexivity. Qed.

Lemma numbers_rendered_to_places_witness :
  get_electricity_prices_record no_repr
    (VDict [("HourDK", VStr "2024-01-01T00:00:00");
            ("SpotPriceDKK", VFloat (float_of_decimal 100005 3));
            ("SpotPriceEUR", VInt 13)]) []
  = Ok ["2024-01-01T00:00:00: 100.00 DKK/MWh (13.00 EUR/MWh)"] /\
  get_co2_emissions_record no_repr
    (VDict [("Minutes5DK", VStr "2024-01-01T00:05:00"); ("PriceArea", VStr "DK2");
            ("CO2Emission", VFloat (float_of_decimal 12345 2))]) []
  = Ok ["2024-01-01T00:05:00 (DK2): 123.5 g/kWh"].
Proof.
  split.
  - destruct (numbers_rendered_to_places no_repr
                [("HourDK", VStr "2024-01-01T00:00:00");
                 ("SpotPriceDKK", VFloat (float_of_decimal 100005 3));
                 ("SpotPriceEUR", VInt 13)] []) as (Hprice & _).
    rewrite Hprice; vm_compute; reflexivity.
  - destruct (numbers_rendered_to_places no_repr
                [("Minutes5DK", VStr "2024-01-01T00:05:00"); ("PriceArea", VStr "DK2");
                 ("CO2Emission", VFloat (float_of_decimal 12345 2))] [])
      as (_ & Hco2 & _).
    rewrite Hco2; vm_compute; reflexivity.
Defined.

Lemma query_dataset_limit_clamp_witness :
  sends (transmitted (query_dataset no_repr "Elspotprices" 250 0 None None None None None)
           offline) "limit" (Some (VInt 100)) /\
  sends (transmitted (query_dataset no_repr "Elspotprices" 7 0 None None None None None)
           offline) "limit" (Some (VInt 7)).
Proof.
  split.
  - apply (query_dataset_limit_clamp no_repr offline "Elspotprices" 250 0
             None None None None None). lia.
  - apply (query_dataset_limit_clamp no_repr offline "Elspotprices" 7 0
             None None None None None). lia.
Defined.

(** C5 at work: a status of 404 comes back as an error value; in a
    session where the client cannot be built the executor raises to its
    caller and sends nothing, and so does the tool that called it. *)
Lemma make_api_request_outcomes_witness :
  outcome (make_api_request "meta/dataset" None)
    (working (fun _ => Ok {| status_code := 404; text := "Not Found"; json := Ok VNone |}))
  = Ok (VDict [("error", VStr "HTTP error 404: Not Found")]) /\
  outcome (make_api_request "meta/dataset" None) no_client
  = Raise proxy_error /\
  requests (make_api_request "meta/dataset" None) no_client = [].
Proof.
  split.
  - destruct (make_api_request_outcomes "meta/dataset" None
                (working (fun _ => Ok {| status_code := 404; text := "Not Found";
                                         json := Ok VNone |})))
      as (Hworking & _).
    destruct (Hworking eq_refl eq_refl) as (Hstatus & _).
    rewrite (Hstatus _ eq_refl eq_refl). vm_compute. reflexivity.
  - destruct (make_api_request_outcomes "meta/dataset" None no_client) as (_ & Hraise & _).
    apply Hraise. reflexivity.
Defined.

Lemma client_failure_propagates :
  outcome (make_api_request "meta/dataset" None) no_client
  = Raise proxy_error /\
  outcome (list_datasets no_repr) no_client
  = Raise proxy_error /\
  requests (list_datasets no_repr) no_client = [].
Proof. repeat split; vm_compute; reflexivity. Qed.

(** C9 refuted as stated: a 2xx response whose body is JSON null makes the
    executor return [None], and the guard of the tool is reached. *)
Lemma null_body_returns_none :
  returned (make_api_request "meta/dataset" None) (mock_http VNone) = Ok VNone /\
  returned (list_datasets no_repr) (mock_http VNone)
  = Ok "Unable to fetch dataset list from Energinet Data Service.".
Proof. split; vm_compute; reflexivity. Qed.

Lemma make_api_request_none_iff_null_witness :
  outcome (make_api_request "meta/dataset" None) (working (mock_http VNone)) = Ok VNone /\
  returned (get_co2_emissions no_repr 24 None None) (mock_http VNone)
  = Ok "Unable to fetch CO2 emission data.".
Proof.
  destruct (make_api_request_none_iff_null no_repr "meta/dataset" "Elspotprices" "DK1" None
              (working (mock_http VNone)) (mock_http VNone) 24 0
              None None None None None None)
    as (_ & Hnone & Htools).
  split.
  - apply Hnone. split; [reflexivity | split; [reflexivity |]].
    eexists. split; [reflexivity | split; reflexivity].
  - apply Htools. apply mock_http_returns.
Defined.

(** C10 refuted as stated: an empty price area given to
    [get_electricity_prices] is transmitted, as a filter on the empty area,
    where the absent argument transmits the filter on the default area. *)
Lemma empty_price_area_transmitted :
  sends (transmitted (get_electricity_prices no_repr "" 24 None None) offline)
    "filter" (Some (price_area_filter "")) /\
  sends (transmitted (get_electricity_prices no_repr DEFAULT_PRICE_AREA 24 None None) offline)
    "filter" (Some (price_area_filter "DK1")) /\
  price_area_filter "" <> price_area_filter "DK1".
Proof.
  repeat split.
  - eexists _, _. split; [apply get_electricity_prices_transmitted |].
    split; [reflexivity | vm_compute; reflexivity].
  - eexists _, _. split; [apply get_electricity_prices_transmitted |].
    split; [reflexivity | vm_compute; reflexivity].
  - vm_compute. discriminate.
Qed.

Lemma empty_arguments_omitted_witness :
  sends (transmitted (query_dataset no_repr "Elspotprices" 10 0 (Some "") None None None None)
           offline) "offset" None /\
  sends (transmitted (query_dataset no_repr "Elspotprices" 10 5 (Some "") None None None None)
           offline) "offset" (Some (VInt 5)).
Proof.
  split.
  - apply (empty_arguments_omitted no_repr offline "Elspotprices" "DK1" 10 0
             None (Some "") None None None None). lia.
  - apply (empty_arguments_omitted no_repr offline "Elspotprices" "DK1" 10 5
             None (Some "") None None None None). lia.
Defined.

(** ** Concrete runs of the further properties *)


Lemma tools_raise_on_other_bodies_witness :
  raises (returned (get_co2_emissions no_repr 24 None None) (mock_http (VList []))).
Proof.
  apply (tools_raise_on_other_bodies no_repr (mock_http (VList [])) (VList [])
           "Elspotprices" "DK1" 24 0 None None None None None None).
  - reflexivity.
  - apply mock_http_returns.
Defined.

Lemma list_datasets_lists_every_dataset_witness :
  returned (list_datasets no_repr)
    (mock_http (VDict [("result",
       VList (map VDict [[("name", VStr "Elspotprices"); ("description", VStr "Spot prices")];
                         [("name", VStr "CO2Emis")]]))]))
  = Ok (String.concat NL
          ["Available datasets (2 total):"; "";
           "- Elspotprices: Spot prices"; "- CO2Emis: No description"]).
Proof.
  apply (list_datasets_lists_every_dataset no_repr _
           [("result",
             VList (map VDict [[("name", VStr "Elspotprices");
                                ("description", VStr "Spot prices")];
                               [("name", VStr "CO2Emis")]]))]
           [[("name", VStr "Elspotprices"); ("description", VStr "Spot prices")];
            [("name", VStr "CO2Emis")]]).
  - apply mock_http_returns.
  - reflexivity.
  - reflexivity.
  - discriminate.
Defined.

Lemma tools_report_nothing_found_witness :
  returned (get_co2_emissions no_repr 24 None None) (mock_http (VDict [("total", VInt 0)]))
  = Ok "No CO2 emission data found.".
Proof.
  apply (tools_report_nothing_found no_repr (mock_http (VDict [("total", VInt 0)]))
           [("total", VInt 0)] "Elspotprices" "DK1" 24 None None None).
  - apply mock_http_returns.
  - reflexivity.
  - reflexivity.
Defined.

Lemma get_dataset_metadata_lists_columns_witness :
  returned (get_dataset_metadata no_repr "CO2Emis")
    (mock_http (VDict [("result",
       VDict [("description", VStr "CO2 emission"); ("recordCount", VInt 5);
              ("columns", VList (map VDict [[("name", VStr "CO2Emission");
                                             ("type", VStr "float")]]))])]))
  = Ok (String.concat NL
          ["Dataset: CO2Emis"; "Description: CO2 emission"; "Total Records: 5";
           NL +:+ "Columns:"; "  - CO2Emission (float): No description"]).
Proof.
  apply (get_dataset_metadata_lists_columns no_repr _ "CO2Emis"
           [("result",
             VDict [("description", VStr "CO2 emission"); ("recordCount", VInt 5);
                    ("columns", VList (map VDict [[("name", VStr "CO2Emission");
                                                   ("type", VStr "float")]]))])]
           [("description", VStr "CO2 emission"); ("recordCount", VInt 5);
            ("columns", VList (map VDict [[("name", VStr "CO2Emission");
                                           ("type", VStr "float")]]))]
           [[("name", VStr "CO2Emission"); ("type", VStr "float")]]).
  - apply mock_http_returns.
  - reflexivity.
  - reflexivity.
  - discriminate.
  - left. reflexivity.
Defined.

Lemma query_dataset_report_witness :
  returned (query_dataset no_repr "CO2Emis" 1 0 None None None None None)
    (mock_http (VDict [("total", VInt 2);
                       ("records", VList (map VDict [[("a", VInt 1)]; [("a", VInt 2)]]))]))
  = Ok (String.concat NL
          ["Dataset: CO2Emis"; "Total matching records: 2"; "Records returned: 2"; "";
           "Record 1:" +:+ NL +:+ "  a: 1" +:+ NL +:+ omission_summary 1]).
Proof.
  apply (query_dataset_report no_repr _ "CO2Emis" 1 0 None None None None None
           [("total", VInt 2);
            ("records", VList (map VDict [[("a", VInt 1)]; [("a", VInt 2)]]))]
           [[("a", VInt 1)]; [("a", VInt 2)]]).
  - apply mock_http_returns.
  - reflexivity.
  - reflexivity.
  - discriminate.
  - lia.
Defined.

Lemma format_records_negative_witness :
  format_records no_repr (VList (map VDict [[("a", VInt 1)]; [("a", VInt 2)]])) (-1)
  = Ok ("Record 1:" +:+ NL +:+ "  a: 1" +:+ NL +:+ omission_summary 3).
Proof.
  apply (format_records_negative no_repr [[("a", VInt 1)]; [("a", VInt 2)]] (-1)).
  - lia.
  - discriminate.
Defined.

Lemma get_electricity_prices_report_witness :
  returned (get_electricity_prices no_repr "DK2" 24 None None)
    (mock_http (VDict [("records",
       VList (map VDict [[("HourUTC", VStr "2024-01-01T00:00:00"); ("SpotPriceDKK", VInt 250);
                          ("SpotPriceEUR", VNone)]]))]))
  = Ok (String.concat NL
          ["Electricity Spot Prices for DK2"; "(Prices in DKK/MWh and EUR/MWh)" +:+ NL;
           "2024-01-01T00:00:00: 250.00 DKK/MWh (None EUR/MWh)"]).
Proof.
  apply (get_electricity_prices_report no_repr _ "DK2" 24 None None
           [("records",
             VList (map VDict [[("HourUTC", VStr "2024-01-01T00:00:00");
                                ("SpotPriceDKK", VInt 250); ("SpotPriceEUR", VNone)]]))]
           [[("HourUTC", VStr "2024-01-01T00:00:00"); ("SpotPriceDKK", VInt 250);
             ("SpotPriceEUR", VNone)]]).
  - apply mock_http_returns.
  - reflexivity.
  - reflexivity.
  - discriminate.
  - intros r [<- | []]. split; vm_compute; reflexivity.
Defined.

Lemma get_co2_emissions_report_witness :
  returned (get_co2_emissions no_repr 24 None None)
    (mock_http (VDict [("records",
       VList (map VDict [[("Minutes5UTC", VStr "2024-01-01T00:05:00")]]))]))
  = Ok (String.concat NL
          ["CO2 Emission Intensity (g CO2/kWh)" +:+ NL;
           "2024-01-01T00:05:00 (Unknown): N/A g/kWh"]).
Proof.
  apply (get_co2_emissions_report no_repr _ 24 None None
           [("records", VList (map VDict [[("Minutes5UTC", VStr "2024-01-01T00:05:00")]]))]
           [[("Minutes5UTC", VStr "2024-01-01T00:05:00")]]).
  - apply mock_http_returns.
  - reflexivity.
  - reflexivity.
  - discriminate.
  - intros r [<- | []]. reflexivity.
Defined.


Lemma tools_send_one_request_witness :
  requests (list_datasets no_repr) (working offline) = [request_for "meta/dataset" None] /\
  requests (get_co2_emissions no_repr 24 None None) no_client = [] /\
  outcome (get_co2_emissions no_repr 24 None None) no_client
  = Raise proxy_error.
Proof.
  destruct (tools_send_one_request no_repr digits_only (working offline) "Elspotprices" "DK1" 24 0
              None None None None None None) as (Hone & _).
  destruct (tools_send_one_request no_repr digits_only no_client "Elspotprices" "DK1" 24 0
              None None None None None None) as (_ & Hnone).
  split; [apply (Hone eq_refl) |].
  apply (Hnone _ eq_refl).
Defined.

Lemma given_arguments_transmitted_witness :
  sends (transmitted (get_production_consumption no_repr (Some "DK1") 24 None None) offline)
    "filter" (Some (price_area_filter "DK1")).
Proof.
  apply (given_arguments_transmitted no_repr offline "DK1" "Elspotprices" "DK1" 24 0
           None None None None None None).
  discriminate.
Defined.

Lemma main_serves_last_host_and_port_witness :
  main digits_only
    ["server.py"; "--http"; "--host"; "localhost"; "--port"; "8080";
     "--host"; "example.org"; "--sse"; "--port"; "9090"; "--host"] fresh_process
  = (Ok tt,
     {| environ := <["UVICORN_PORT" := "9090"]> (<["UVICORN_HOST" := "example.org"]> ∅);
        stdout := ["Starting MCP server with streamable-http transport on " +:+
                   "http://example.org:9090"];
        settings_host := "example.org";
        settings_port := 9090;
        served := ["streamable-http"] |}).
Proof.
  apply (main_serves_last_host_and_port digits_only
           ["server.py"; "--http"; "--host"; "localhost"; "--port"; "8080";
            "--host"; "example.org"; "--sse"; "--port"; "9090"; "--host"]
           fresh_process [8080; 9090]).
  - reflexivity.
  - vm_compute. reflexivity.
Defined.

Lemma main_bad_port_only_matters_in_network_mode_witness :
  main digits_only ["server.py"; "--sse"; "--port"; "80a"; "--port"; "9090"] fresh_process
  = (Raise (Exception "ValueError" "invalid literal for int() with base 10"), fresh_process)
  /\
  main digits_only ["server.py"; "--port"; "80a"; "--port"; "9090"] fresh_process
  = (Ok tt,
     {| environ := ∅; stdout := []; settings_host := "127.0.0.1"; settings_port := 8000;
        served := ["stdio"] |}).
Proof.
  split.
  - apply (main_bad_port_only_matters_in_network_mode digits_only
             ["server.py"; "--sse"; "--port"; "80a"; "--port"; "9090"] fresh_process).
    + vm_compute. reflexivity.
    + reflexivity.
  - apply (main_bad_port_only_matters_in_network_mode digits_only
             ["server.py"; "--port"; "80a"; "--port"; "9090"] fresh_process
             (Exception "ValueError" "invalid literal for int() with base 10")).
    + vm_compute. reflexivity.
    + reflexivity.
Defined.
